(** * pySigfox: a shallow embedding of [pySigfox/pySigfox.py]

    The Python class [Sigfox] wraps the Sigfox REST API.  Every method
    performs synchronous HTTP calls through [requests]; the two
    message-retrieval methods are moreover decorated with
    [@sleep_and_retry] and [@limits(calls=1, period=5)] from the
    [ratelimit] package.

    The embedding is a state-and-exception monad over an explicit world:
    a clock, the log of the HTTP requests sent, the text written to
    standard output and the state of the two rate limiters.  The backend
    is a parameter of the development: a function that answers a request
    given the time and the requests seen so far.  The [while True] loop of
    [sleep_and_retry] and the recursion of the pagination are bounded by
    a fuel argument; running out of fuel is the outcome [NoFuel].

    The pagination recurses through the decorated method, three Python
    frames for each page.  [device_messages_page] and [device_messages]
    are the methods in an interpreter whose recursion limit is not
    reached; [device_messages_page_within] and [device_messages_within]
    are the same methods with the number of nested calls that fit as a
    parameter, and raise [RecursionError] for the call that does not
    fit.  Failures of the transport are not modelled. *)

From Stdlib Require Import String ZArith List Bool Lia DecimalString.
Import ListNotations.

Open Scope string_scope.
Open Scope Z_scope.

(** ** Python values *)

(** The values that [json] produces and consumes: [None], booleans,
    integers, strings, lists and dictionaries (floats are left out: the
    code passes numbers on and never computes with them).  A dictionary
    keeps its insertion order, as Python's [dict] does; its keys are
    distinct. *)
#[local] Unset Elimination Schemes.
Inductive value : Type :=
| VNone
| VBool (b : bool)
| VInt (n : Z)
| VStr (s : string)
| VList (l : list value)
| VDict (d : list (string * value)).
#[local] Set Elimination Schemes.

(** The exception classes that the code raises or meets.  All of them
    derive from [Exception]; [JSONDecodeError] carries the document that
    failed to parse (its [doc] attribute) and [RateLimitException] its
    [period_remaining]; [RecursionError] is what the interpreter raises
    for a call that does not fit under its recursion limit. *)
Inductive exn : Type :=
| Exception (msg : string)
| KeyError (key : string)
| TypeError
| ValueError
| JSONDecodeError (doc : string)
| RateLimitException (msg : string) (period_remaining : Z)
| RecursionError.

(** The handlers of the source: [except KeyError], [except Exception]
    and, in [sleep_and_retry], [except RateLimitException]. *)
Definition is_KeyError (e : exn) : bool :=
  match e with KeyError _ => true | _ => false end.

Definition is_Exception (e : exn) : bool := true.

Definition is_RateLimitException (e : exn) : bool :=
  match e with RateLimitException _ _ => true | _ => false end.

Fixpoint lookup (k : string) (d : list (string * value)) : option value :=
  match d with
  | [] => None
  | (k', v) :: d' => if String.eqb k k' then Some v else lookup k d'
  end.

(** [v[k]] for a string key [k]: a dictionary answers or raises
    [KeyError]; every other value raises [TypeError]. *)
Definition getitem (v : value) (k : string) : exn + value :=
  match v with
  | VDict d => match lookup k d with
               | Some x => inr x
               | None => inl (KeyError k)
               end
  | _ => inl TypeError
  end.

Fixpoint chars (s : string) : list value :=
  match s with
  | EmptyString => []
  | String c s' => VStr (String c EmptyString) :: chars s'
  end.

(** Iteration over a value: the elements of a list, the characters of a
    string, the keys of a dictionary; the other values are not
    iterable. *)
Definition iter (v : value) : exn + list value :=
  match v with
  | VList l => inr l
  | VStr s => inr (chars s)
  | VDict d => inr (map (fun kv => VStr (fst kv)) d)
  | _ => inl TypeError
  end.

Definition as_int (v : value) : option Z :=
  match v with
  | VInt n => Some n
  | VBool b => Some (if b then 1 else 0)
  | _ => None
  end.

(** [a += b]: a list is extended by any iterable, strings concatenate,
    integers (and booleans) add; anything else is a [TypeError]. *)
Definition iadd (a b : value) : exn + value :=
  match a with
  | VList l => match iter b with
               | inr l' => inr (VList (l ++ l'))
               | inl e => inl e
               end
  | VStr s => match b with
              | VStr s' => inr (VStr (s ++ s'))
              | _ => inl TypeError
              end
  | VInt _ | VBool _ =>
      match as_int a, as_int b with
      | Some x, Some y => inr (VInt (x + y))
      | _, _ => inl TypeError
      end
  | _ => inl TypeError
  end.

(** [s + v] where [s] is a string. *)
Definition str_add (s : string) (v : value) : exn + string :=
  match v with
  | VStr s' => inr (s ++ s')
  | _ => inl TypeError
  end.

(** ** HTTP requests and responses *)

Inductive http_method : Type := GET | PUT | POST.

(** The payload of a request: nothing, the [json=] keyword (a value sent
    as JSON) or the [data=] keyword (a form-encoded dictionary). *)
Inductive payload : Type :=
| NoPayload
| JsonPayload (v : value)
| DataPayload (d : list (string * value)).

Record Request : Type := mkRequest {
  method : http_method;
  url : value;
  auth : string * string;
  params : option (list (string * value));
  body : payload
}.

(** What the code reads of a [requests.Response]: the status code, the
    body text, the outcome of [r.json()] ([None] when the text is not
    valid JSON) and the time the exchange took. *)
Record Response : Type := mkResponse {
  status_code : Z;
  text : string;
  json : option value;
  elapsed : N
}.

(** ** The world *)

(** Time is counted in milliseconds. *)
Definition seconds (n : Z) : Z := n * 1000.

(** The state of one [limits(...)] decorator object. *)
Record RateLimitDecorator : Type := mkLimiter {
  last_reset : Z;
  num_calls : Z
}.

(** [limits(calls=1, period=5)]. *)
Definition clamped_calls : Z := 1.
Definition period : Z := seconds 5.

(** What is written to standard output: [print(s)], [pprint(v)] and
    [print(s + str(e))] for an exception [e]. *)
Inductive output : Type :=
| Print (s : string)
| PPrint (v : value)
| PrintExn (s : string) (e : exn).

(** Each [@limits(calls=1, period=5)] line of the class builds a
    decorator object of its own: one for [device_messages_page], one for
    [device_messages].  Both are created when the class is defined, so
    they are shared by all instances. *)
Record World : Type := mkWorld {
  clock : Z;
  sent : list (Z * Request);
  stdout : list output;
  page_limiter : RateLimitDecorator;
  messages_limiter : RateLimitDecorator
}.

Inductive limiter : Type := PageLimiter | MessagesLimiter.

Definition get_limiter (L : limiter) (w : World) : RateLimitDecorator :=
  match L with
  | PageLimiter => page_limiter w
  | MessagesLimiter => messages_limiter w
  end.

Definition set_limiter (L : limiter) (s : RateLimitDecorator) (w : World) : World :=
  match L with
  | PageLimiter =>
      mkWorld (clock w) (sent w) (stdout w) s (messages_limiter w)
  | MessagesLimiter =>
      mkWorld (clock w) (sent w) (stdout w) (page_limiter w) s
  end.

(** The world when the module has just been imported at time [t0]: each
    limiter is constructed with [last_reset = clock()] and
    [num_calls = 0]. *)
Definition initial_world (t0 : Z) : World :=
  mkWorld t0 [] [] (mkLimiter t0 0) (mkLimiter t0 0).

(** ** The monad *)

Inductive outcome (A : Type) : Type :=
| Return (a : A)
| Raise (e : exn)
| NoFuel.

Arguments Return {A} a.
Arguments Raise {A} e.
Arguments NoFuel {A}.

Definition M (A : Type) : Type := World -> outcome A * World.

Definition ret {A} (a : A) : M A := fun w => (Return a, w).

Definition raise {A} (e : exn) : M A := fun w => (Raise e, w).

Definition out_of_fuel {A} : M A := fun w => (NoFuel, w).

Definition bind {A B} (m : M A) (f : A -> M B) : M B :=
  fun w =>
    match m w with
    | (Return a, w') => f a w'
    | (Raise e, w') => (Raise e, w')
    | (NoFuel, w') => (NoFuel, w')
    end.

Notation "x <- m ;; k" := (bind m (fun x => k))
  (at level 61, m at next level, right associativity).
Notation "m ;;; k" := (bind m (fun _ => k))
  (at level 61, right associativity).

(** [try: m  except <handles> as e: h e]. *)
Definition try_except {A} (m : M A) (handles : exn -> bool) (h : exn -> M A) : M A :=
  fun w =>
    match m w with
    | (Raise e, w') => if handles e then h e w' else (Raise e, w')
    | r => r
    end.

Definition lift {A} (r : exn + A) : M A :=
  match r with
  | inr a => ret a
  | inl e => raise e
  end.

Definition print (s : string) : M unit :=
  fun w => (Return tt,
            mkWorld (clock w) (sent w) (Print s :: stdout w)
                    (page_limiter w) (messages_limiter w)).

Definition pprint (v : value) : M unit :=
  fun w => (Return tt,
            mkWorld (clock w) (sent w) (PPrint v :: stdout w)
                    (page_limiter w) (messages_limiter w)).

Definition print_exn (s : string) (e : exn) : M unit :=
  fun w => (Return tt,
            mkWorld (clock w) (sent w) (PrintExn s e :: stdout w)
                    (page_limiter w) (messages_limiter w)).

Definition when (b : bool) (m : M unit) : M unit :=
  if b then m else ret tt.

(** [time.sleep(d)]: a negative duration is a [ValueError]. *)
Definition sleep (d : Z) : M unit :=
  fun w =>
    if d <? 0 then (Raise ValueError, w)
    else (Return tt,
          mkWorld (clock w + d) (sent w) (stdout w)
                  (page_limiter w) (messages_limiter w)).

(** ** The decorators of the [ratelimit] package *)

(** [RateLimitDecorator.__call__]'s wrapper: when the window has
    elapsed the counter and the window start are reset; the attempt is
    counted; an attempt beyond [clamped_calls] raises
    [RateLimitException('too many calls', period_remaining)]. *)
Definition limits {A} (L : limiter) (func : M A) : M A :=
  fun w =>
    let st := get_limiter L w in
    let period_remaining := period - (clock w - last_reset st) in
    let st1 := if period_remaining <=? 0 then mkLimiter (clock w) 0 else st in
    let st2 := mkLimiter (last_reset st1) (num_calls st1 + 1) in
    let w' := set_limiter L st2 w in
    if clamped_calls <? num_calls st2
    then (Raise (RateLimitException "too many calls" period_remaining), w')
    else func w'.

(** [sleep_and_retry]'s wrapper:
    [while True: try: return func() except RateLimitException as e:
    time.sleep(e.period_remaining)]. *)
Fixpoint sleep_and_retry {A} (fuel : nat) (func : M A) : M A :=
  match fuel with
  | O => out_of_fuel
  | S n =>
      fun w =>
        match func w with
        | (Raise (RateLimitException _ p), w') =>
            (sleep p ;;; sleep_and_retry n func) w'
        | r => r
        end
  end.

(** ** The class [Sigfox] *)

Record Sigfox : Type := mkSigfox {
  login : string;
  password : string;
  api_url : string;
  debug : bool
}.

(** [not s] for a string [s]. *)
Definition falsy (s : string) : bool :=
  match s with EmptyString => true | _ => false end.

(** [Sigfox.__init__]. *)
Definition __init__ (login password : string) (debug : bool) : M Sigfox :=
  if falsy login || falsy password
  then raise (Exception
    "Please define login and password when initiating pySigfox class!")
  else ret (mkSigfox login password "https://api.sigfox.com/v2/" debug).

Section Client.

(** The backend: given the requests already received (latest first,
    with the time each was sent), the current time and a request, it
    answers.  Every request is answered; failures of the transport
    itself are outside the model, and so is a [url] that is not a URL
    string, which [requests] refuses before it sends anything: the
    statements about walks ask for cursors that are URLs ([is_url]). *)
Variable backend : list (Z * Request) -> Z -> Request -> Response.

(** One HTTP exchange: the request is logged with the time it is sent
    and the clock advances by the duration of the exchange. *)
Definition send (rq : Request) : M Response :=
  fun w =>
    let r := backend (sent w) (clock w) rq in
    (Return r,
     mkWorld (clock w + Z.of_N (elapsed r)) ((clock w, rq) :: sent w)
             (stdout w) (page_limiter w) (messages_limiter w)).

Definition basic_auth (self : Sigfox) : string * string :=
  (login self, password self).

Definition requests_get (self : Sigfox) (u : value)
    (ps : option (list (string * value))) : M Response :=
  send (mkRequest GET u (basic_auth self) ps NoPayload).

Definition requests_put (self : Sigfox) (u : value) (js : value) : M Response :=
  send (mkRequest PUT u (basic_auth self) None (JsonPayload js)).

(** [r.json()], and [json.loads(r.text)]: the parsed body, or the
    decoder's error, which holds the text it was given. *)
Definition response_json (r : Response) : M value :=
  match json r with
  | Some v => ret v
  | None => raise (JSONDecodeError (text r))
  end.

(** [str(n)] for an integer [n]. *)
Definition str_of_int (n : Z) : string :=
  NilZero.string_of_int (Z.to_int n).

(** [login_test]. *)
Definition login_test (self : Sigfox) : M value :=
  let u := api_url self ++ "device-types" in
  r <- requests_get self (VStr u) None ;;
  if negb (status_code r =? 200)
  then raise (Exception ("Unable to login to Sigfox API (" ++ u ++ "): "
                         ++ str_of_int (status_code r)))
  else ret VNone.

(** [device_types_list]. *)
Definition device_types_list (self : Sigfox) : M value :=
  let u := api_url self ++ "device-types" in
  r <- requests_get self (VStr u) None ;;
  j <- response_json r ;;
  lift (getitem j "data").

(** [device_rename]; [str(device_id)] is the identity on the strings
    that device ids are.  The method ends without a [return]: its value
    is [None]. *)
Definition device_rename (self : Sigfox) (device_id : string) (new_name : value)
  : M value :=
  let u := api_url self ++ "devices/" ++ device_id in
  when (debug self) (print ("Connecting to " ++ u)) ;;;
  r <- requests_put self (VStr u) (VDict [("name", new_name)]) ;;
  ret VNone.

(** [device_info]. *)
Definition device_info (self : Sigfox) (device_id : string) : M value :=
  let u := api_url self ++ "devices/" ++ device_id in
  when (debug self) (print ("Connecting to " ++ u)) ;;;
  r <- requests_get self (VStr u) None ;;
  try_except (response_json r)
    is_Exception (fun e => pprint (VStr (text r)) ;;; raise e).

(** The [for group in ...: out.append(group)] loop of [groups_list]. *)
Fixpoint append_all (out groups : list value) : list value :=
  match groups with
  | [] => out
  | g :: gs => append_all (out ++ [g]) gs
  end.

(** [groups_list]. *)
Definition groups_list (self : Sigfox) : M value :=
  let u := api_url self ++ "groups" in
  when (debug self) (print ("Connecting to " ++ u)) ;;;
  r <- requests_get self (VStr u) None ;;
  when (debug self) (pprint (VStr (text r))) ;;;
  j <- response_json r ;;
  d <- lift (getitem j "data") ;;
  groups <- lift (iter d) ;;
  ret (VList (append_all [] groups)).

Definition requests_post (self : Sigfox) (u : value) (p : payload) : M Response :=
  send (mkRequest POST u (basic_auth self) None p).

(** [device_create]; [str(cert)] is the identity on the string that the
    certificate is. *)
Definition device_create (self : Sigfox) (device : value) (cert : string)
    (devicetype : value) : M value :=
  (if debug self then
     i <- lift (getitem device "id") ;;
     s1 <- lift (str_add "Adding device " i) ;;
     n <- lift (getitem devicetype "name") ;;
     s2 <- lift (str_add (s1 ++ " to device type ") n) ;;
     print s2
   else ret tt) ;;;
  i <- lift (getitem device "id") ;;
  p <- lift (getitem device "pac") ;;
  let to_post :=
    VDict [("prefix", VStr "api_added-");
           ("ids", VList [VDict [("id", i); ("pac", p)]]);
           ("productCertificate", VStr cert)] in
  t <- lift (getitem devicetype "id") ;;
  u0 <- lift (str_add (api_url self ++ "devicetypes/") t) ;;
  let u := u0 ++ "/devices/bulk/create/async" in
  when (debug self)
    (print ("Connecting to " ++ u) ;;;
     print "Posting following data:" ;;;
     pprint to_post) ;;;
  r <- requests_post self (VStr u) (JsonPayload to_post) ;;
  when (debug self) (pprint (VStr ("Response: " ++ text r))) ;;;
  response_json r.

(** [device_types_create]: the argument [new] is not used, the posted
    dictionary is the literal of the source, and the value returned is
    the response object itself. *)
Definition device_types_create (self : Sigfox) (new : value) : M Response :=
  let dtype := [("name", VStr "test1");
                ("contractId", VStr "moire_la_30f0_30f1")] in
  let u := api_url self ++ "devicetypes/create" in
  when (debug self) (print ("Connecting to " ++ u)) ;;;
  r <- requests_post self (VStr u) (DataPayload dtype) ;;
  ret r.

(** [device_list]. *)
Definition device_list (self : Sigfox) (device_type : value) : M value :=
  let out := VList [] in
  t <- lift (getitem device_type "id") ;;
  let ps := [("deviceTypeId", t)] in
  let u := api_url self ++ "devices" in
  r <- requests_get self (VStr u) (Some ps) ;;
  out <- try_except
           (j <- response_json r ;;
            d <- lift (getitem j "data") ;;
            lift (iadd out d))
           is_Exception
           (fun e =>
              print_exn "Unable to access data from returned RESP API call: " e ;;;
              pprint (VStr (text r)) ;;;
              raise e) ;;
  ret out.

(** The body of [device_messages_page]; [self_device_messages_page] is
    the decorated method that the body calls for the next page. *)
Definition device_messages_page_body
    (self_device_messages_page : value -> M value)
    (self : Sigfox) (u : value) : M value :=
  r <- requests_get self u None ;;
  if status_code r =? 429
  then raise (RateLimitException "Exceeded Sigfox API rate limit" (seconds 5))
  else
    try_except
      (r_deserialized <- response_json r ;;
       out <- lift (getitem r_deserialized "data") ;;
       try_except
         (paging <- lift (getitem r_deserialized "paging") ;;
          next <- lift (getitem paging "next") ;;
          more <- self_device_messages_page next ;;
          lift (iadd out more))
         is_KeyError (fun _ => ret out))
      is_Exception (fun e => pprint (VStr (text r)) ;;; raise e).

(** [device_messages_page], decorated: [sleep_and_retry] outside,
    [limits] inside; the recursion limit of the interpreter is not
    reached (see [device_messages_page_within]). *)
Fixpoint device_messages_page (fuel : nat) (self : Sigfox) (u : value) : M value :=
  match fuel with
  | O => out_of_fuel
  | S n =>
      sleep_and_retry (S n)
        (limits PageLimiter
           (device_messages_page_body (device_messages_page n self) self u))
  end.

(** The body of [device_messages]. *)
Definition device_messages_body
    (self_device_messages_page : value -> M value)
    (self : Sigfox) (device_id : string)
    (ps : option (list (string * value))) : M value :=
  let ps := match ps with
            | None => [("limit", VInt 10)]
            | Some p => p
            end in
  let u := api_url self ++ "devices/" ++ device_id ++ "/messages" in
  r <- requests_get self (VStr u) (Some ps) ;;
  if status_code r =? 429
  then raise (RateLimitException "Exceeded Sigfox API rate limit" (seconds 5))
  else
    try_except
      (r_deserialized <- response_json r ;;
       out <- lift (getitem r_deserialized "data") ;;
       try_except
         (paging <- lift (getitem r_deserialized "paging") ;;
          next <- lift (getitem paging "next") ;;
          more <- self_device_messages_page next ;;
          lift (iadd out more))
         is_KeyError (fun _ => ret out))
      is_Exception (fun e => pprint (VStr (text r)) ;;; raise e).

(** [device_messages], decorated. *)
Definition device_messages (fuel : nat) (self : Sigfox) (device_id : string)
    (ps : option (list (string * value))) : M value :=
  sleep_and_retry fuel
    (limits MessagesLimiter
       (device_messages_body (device_messages_page fuel self) self device_id ps)).

(** [device_messages_page] under the recursion limit of the
    interpreter.  Each call of the decorated method takes three frames
    (the wrapper of [sleep_and_retry], the wrapper of [limits] and the
    body) and the body needs some more for the calls it makes.
    [capacity] is the number of nested calls of the decorated method
    that fit under [sys.getrecursionlimit()] from where the method is
    called; the call that does not fit raises [RecursionError] and sends
    nothing. *)
Fixpoint device_messages_page_within (capacity fuel : nat) (self : Sigfox)
    (u : value) {struct fuel} : M value :=
  match fuel with
  | O => out_of_fuel
  | S n =>
      match capacity with
      | O => raise RecursionError
      | S c =>
          sleep_and_retry (S n)
            (limits PageLimiter
               (device_messages_page_body
                  (device_messages_page_within c n self) self u))
      end
  end.

(** [device_messages] under the recursion limit: its own call is the
    first of the [capacity] nested calls that fit. *)
Definition device_messages_within (capacity fuel : nat) (self : Sigfox)
    (device_id : string) (ps : option (list (string * value))) : M value :=
  match capacity with
  | O => raise RecursionError
  | S c =>
      sleep_and_retry fuel
        (limits MessagesLimiter
           (device_messages_body (device_messages_page_within c fuel self)
              self device_id ps))
  end.

End Client.

(** ** Vocabulary of the statements *)

(** The request that [device_messages_page] sends for a cursor, and the
    ones of [device_messages], [device_info], [groups_list] and
    [device_list]. *)
Definition page_request (self : Sigfox) (u : value) : Request :=
  mkRequest GET u (basic_auth self) None NoPayload.

Definition messages_request (self : Sigfox) (device_id : string)
    (ps : option (list (string * value))) : Request :=
  mkRequest GET (VStr (api_url self ++ "devices/" ++ device_id ++ "/messages"))
    (basic_auth self)
    (Some match ps with None => [("limit", VInt 10)] | Some p => p end)
    NoPayload.

Definition info_request (self : Sigfox) (device_id : string) : Request :=
  mkRequest GET (VStr (api_url self ++ "devices/" ++ device_id))
    (basic_auth self) None NoPayload.

Definition groups_request (self : Sigfox) : Request :=
  mkRequest GET (VStr (api_url self ++ "groups")) (basic_auth self) None NoPayload.

Definition list_request (self : Sigfox) (t : value) : Request :=
  mkRequest GET (VStr (api_url self ++ "devices")) (basic_auth self)
    (Some [("deviceTypeId", t)]) NoPayload.

(** A cursor that [requests] takes: a string with the scheme [http] or
    [https]. *)
Definition is_url (v : value) : Prop :=
  exists s, v = VStr ("http://" ++ s) \/ v = VStr ("https://" ++ s).

(** A response that carries a page: its status is not 429 and its body
    is a JSON object whose [data] is the list [d]; with [next = Some u]
    the object has [paging.next = u], with [next = None] it has no
    [paging] key, or a [paging] object without [next]. *)
Definition is_page (r : Response) (d : list value) (next : option value) : Prop :=
  status_code r <> 429 /\
  exists env,
    json r = Some (VDict env) /\
    lookup "data" env = Some (VList d) /\
    match next with
    | Some u =>
        exists pg, lookup "paging" env = Some (VDict pg) /\
                   lookup "next" pg = Some u
    | None =>
        lookup "paging" env = None \/
        exists pg, lookup "paging" env = Some (VDict pg) /\
                   lookup "next" pg = None
    end.

(** A response whose body is a JSON object without the [data] key. *)
Definition lacks_data (r : Response) : Prop :=
  status_code r <> 429 /\
  exists env, json r = Some (VDict env) /\ lookup "data" env = None.

(** The outcome is a [RateLimitException]. *)
Definition is_rate_limit {A} (o : outcome A) : Prop :=
  exists m p, o = Raise (RateLimitException m p).

(** [issued w w' t rq]: between the worlds [w] and [w'] the first
    request sent was [rq], at time [t]. *)
Definition issued (w w' : World) (t : Z) (rq : Request) : Prop :=
  exists later, sent w' = (later ++ (t, rq) :: sent w)%list.

(** The window of a limiter has let a call through and is still open. *)
Definition window_used (L : limiter) (w : World) : Prop :=
  clock w < last_reset (get_limiter L w) + period /\
  1 <= num_calls (get_limiter L w).

(** The window of a limiter is over, or has let no call through yet. *)
Definition window_free (L : limiter) (w : World) : Prop :=
  last_reset (get_limiter L w) + period <= clock w \/
  num_calls (get_limiter L w) <= 0.

(** The world in which the body of a method decorated with
    [sleep_and_retry] and [limits] starts to run: at once when the
    window is free, at the end of the window otherwise. *)
Definition entry (L : limiter) (w : World) : World :=
  let st := get_limiter L w in
  if period - (clock w - last_reset st) <=? 0
  then set_limiter L (mkLimiter (clock w) 1) w
  else if clamped_calls <? num_calls st + 1
  then let t := last_reset st + period in
       set_limiter L (mkLimiter t 1)
         (mkWorld t (sent w) (stdout w) (page_limiter w) (messages_limiter w))
  else set_limiter L (mkLimiter (last_reset st) (num_calls st + 1)) w.

(** The world after [rq] was sent in [w] and answered by [r]. *)
Definition after_send (w : World) (rq : Request) (r : Response) : World :=
  mkWorld (clock w + Z.of_N (elapsed r)) ((clock w, rq) :: sent w)
          (stdout w) (page_limiter w) (messages_limiter w).

(** What [device_messages] and [device_messages_page] both do with a
    response whose status is not 429: the two nested [try] blocks. *)
Definition walk_response (self_device_messages_page : value -> M value)
    (r : Response) : M value :=
  try_except
    (r_deserialized <- response_json r ;;
     out <- lift (getitem r_deserialized "data") ;;
     try_except
       (paging <- lift (getitem r_deserialized "paging") ;;
        next <- lift (getitem paging "next") ;;
        more <- self_device_messages_page next ;;
        lift (iadd out more))
       is_KeyError (fun _ => ret out))
    is_Exception (fun e => pprint (VStr (text r)) ;;; raise e).

Section Pagination.

Variable backend : list (Z * Request) -> Z -> Request -> Response.

(** [chain final h rq self pages]: after the requests [h], the request
    [rq] is answered by the first page of [pages], whose cursor is
    answered by the second, and so on; the cursor of the last of
    [pages] is answered by a response that satisfies [final].  The
    cursors are URLs, and each page is served whatever the time at which
    its request arrives. *)
Fixpoint chain (final : Response -> Prop) (h : list (Z * Request))
    (rq : Request) (self : Sigfox) (pages : list (list value)) : Prop :=
  match pages with
  | [] => forall t, final (backend h t rq)
  | d :: rest =>
      forall t, exists u,
        is_url u /\
        is_page (backend h t rq) d (Some u) /\
        chain final ((t, rq) :: h) (page_request self u) self rest
  end.

End Pagination.

(** [grows m]: running [m] only adds to the log of the requests sent. *)
Definition grows {A} (m : M A) : Prop :=
  forall w, exists l, sent (snd (m w)) = (l ++ sent w)%list.

(** [starts_with rq m]: [m] begins by sending [rq]. *)
Definition starts_with {A} (rq : Request) (m : M A) : Prop :=
  forall w, issued w (snd (m w)) (clock w) rq.

(** ** Sample clients and backends *)

Definition me : Sigfox :=
  mkSigfox "login" "secret" "https://api.sigfox.com/v2/" false.

Definition message (n : Z) : value := VDict [("seqNumber", VInt n)].

Definition first_page : list value :=
  map message [1; 2; 3; 4; 5; 6; 7; 8; 9; 10].

Definition second_page : list value :=
  map message [11; 12; 13; 14; 15].

Definition envelope (d : list value) (next : option string) : value :=
  VDict (("data", VList d)
         :: match next with
            | Some u => [("paging", VDict [("next", VStr u)])]
            | None => []
            end).

(** A 200 response with a JSON body, received after 120 ms. *)
Definition ok (v : value) : Response := mkResponse 200 "(json)" (Some v) 120.

Definition not_found : Response := mkResponse 404 "Not Found" None 120.

Definition too_many : Response := mkResponse 429 "Too Many Requests" None 120.

Definition messages_url : string :=
  "https://api.sigfox.com/v2/devices/1A2B/messages".

Definition cursor : string :=
  "https://api.sigfox.com/v2/devices/1A2B/messages?limit=10&before=1".

(** A backend that holds fifteen messages for the device [1A2B], served
    in two pages of ten and five. *)
Definition two_pages : list (Z * Request) -> Z -> Request -> Response :=
  fun _ _ rq =>
    match url rq with
    | VStr u =>
        if String.eqb u messages_url then ok (envelope first_page (Some cursor))
        else if String.eqb u cursor then ok (envelope second_page None)
        else not_found
    | _ => not_found
    end.

(** A backend that holds no message. *)
Definition no_messages : list (Z * Request) -> Z -> Request -> Response :=
  fun _ _ _ => ok (envelope [] None).

(** A backend whose second page is an envelope without [data]. *)
Definition truncated : list (Z * Request) -> Z -> Request -> Response :=
  fun _ _ rq =>
    match url rq with
    | VStr u =>
        if String.eqb u messages_url then ok (envelope first_page (Some cursor))
        else if String.eqb u cursor
        then ok (VDict [("message", VStr "Internal Server Error")])
        else not_found
    | _ => not_found
    end.

(** A backend that rejects the first request it receives with 429 and
    has no message afterwards. *)
Definition throttled_once : list (Z * Request) -> Z -> Request -> Response :=
  fun h _ _ =>
    match h with
    | [] => too_many
    | _ => ok (envelope [] None)
    end.


(** A backend that answers with the record of the device [1A2B]. *)
Definition plain_info : list (Z * Request) -> Z -> Request -> Response :=
  fun _ _ _ => ok (VDict [("id", VStr "1A2B"); ("name", VStr "tracker")]).

(** A backend that wraps the record of the device in a [data] field. *)
Definition enveloped_info : list (Z * Request) -> Z -> Request -> Response :=
  fun _ _ _ => ok (VDict [("data", VDict [("id", VStr "1A2B")])]).

(** A verbose client. *)
Definition me_debug : Sigfox :=
  mkSigfox "login" "secret" "https://api.sigfox.com/v2/" true.

(** ** Vocabulary of the further properties *)

(** [preserves R m]: the world after [m] is related by [R] to the world
    before. *)
Definition preserves {A} (R : World -> World -> Prop) (m : M A) : Prop :=
  forall w, R w (snd (m w)).

(** What was sent between [w] and [w'] are GET requests that carry the
    credentials of [self]. *)
Definition only_gets (self : Sigfox) (w w' : World) : Prop :=
  exists l,
    sent w' = (l ++ sent w)%list /\
    Forall (fun x => method (snd x) = GET /\ auth (snd x) = basic_auth self) l.

(** A value that is not a dictionary. *)
Definition not_object (v : value) : Prop :=
  match v with
  | VDict _ => False
  | _ => True
  end.

(** A response of the wrong shape: its status is not 429 and its body is
    JSON, but either the body is not an object, or it is an object with
    [data] whose [paging] is not an object. *)
Definition malformed (r : Response) : Prop :=
  status_code r <> 429 /\
  exists v,
    json r = Some v /\
    (not_object v \/
     exists env d p,
       v = VDict env /\ lookup "data" env = Some d /\
       lookup "paging" env = Some p /\ not_object p).

(** The client [self] with its [debug] flag set to [b]. *)
Definition set_debug (b : bool) (self : Sigfox) : Sigfox :=
  mkSigfox (login self) (password self) (api_url self) b.

(** Two worlds that differ at most in what was printed. *)
Definition same_but_stdout (w w' : World) : Prop :=
  clock w = clock w' /\ sent w = sent w' /\
  page_limiter w = page_limiter w' /\
  messages_limiter w = messages_limiter w'.

(** A backend that rejects every request with 429. *)
Definition always_throttled : list (Z * Request) -> Z -> Request -> Response :=
  fun _ _ _ => too_many.

(** A backend whose second page has [paging: null]. *)
Definition null_paging : list (Z * Request) -> Z -> Request -> Response :=
  fun _ _ rq =>
    match url rq with
    | VStr u =>
        if String.eqb u messages_url then ok (envelope first_page (Some cursor))
        else ok (VDict [("data", VList second_page); ("paging", VNone)])
    | _ => not_found
    end.

(** A backend that answers every request with the envelope of three
    records. *)
Definition three_records : list (Z * Request) -> Z -> Request -> Response :=
  fun _ _ _ => ok (envelope [message 1; message 2; message 3] None).

(** A backend that answers every request with an envelope without
    [data]. *)
Definition no_data : list (Z * Request) -> Z -> Request -> Response :=
  fun _ _ _ => ok (VDict [("message", VStr "Internal Server Error")]).

(** The request of [login_test] and [device_types_list]. *)
Definition types_request (self : Sigfox) : Request :=
  mkRequest GET (VStr (api_url self ++ "device-types")) (basic_auth self)
    None NoPayload.

(** A backend that answers every request with status 204 and no body. *)
Definition no_content : list (Z * Request) -> Z -> Request -> Response :=
  fun _ _ _ => mkResponse 204 "" None 120.

(** ** Long chains *)

(** With the default [sys.getrecursionlimit()] of 1000 frames and three
    frames for each nested call, fewer than 334 nested calls fit; the
    frames of the caller and of the libraries take some of them. *)
Definition default_capacity : nat := 333.

(** A backend that serves [n] pages of one record with a cursor and then
    a last page of one record without: [n + 1] pages in all. *)
Definition long_chain (n : nat) : list (Z * Request) -> Z -> Request -> Response :=
  fun h _ _ =>
    if (length h <? n)%nat
    then ok (envelope [message (Z.of_nat (length h))] (Some cursor))
    else ok (envelope [message (Z.of_nat (length h))] None).

(** A backend that serves [n] pages of one record with a cursor and then
    an envelope without [data]. *)
Definition long_truncated (n : nat)
  : list (Z * Request) -> Z -> Request -> Response :=
  fun h _ _ =>
    if (length h <? n)%nat
    then ok (envelope [message (Z.of_nat (length h))] (Some cursor))
    else ok (VDict [("message", VStr "Internal Server Error")]).
(** * Properties *)

(** ** The decorators *)

Lemma not_rate_limit_Return {A} (a : A) : ~ is_rate_limit (Return a).
Proof. intros (m & p & H); discriminate. Qed.

Lemma not_rate_limit_NoFuel {A} : ~ is_rate_limit (@NoFuel A).
Proof. intros (m & p & H); discriminate. Qed.

Lemma not_rate_limit_Raise {A} (e : exn) :
  is_RateLimitException e = false -> ~ is_rate_limit (@Raise A e).
Proof.
  intros He (m & p & H). injection H as ->. discriminate.
Qed.

Create HintDb rate.
#[local] Hint Resolve not_rate_limit_Return not_rate_limit_NoFuel : rate.

(** Whatever [sleep_and_retry] wraps, no [RateLimitException] leaves
    it. *)
Lemma sleep_and_retry_never_rate {A} (fuel : nat) (func : M A) (w : World) :
  ~ is_rate_limit (fst (sleep_and_retry fuel func w)).
Proof.
  revert w. induction fuel as [|n IH]; intros w; simpl.
  - auto with rate.
  - destruct (func w) as [[a|e|] w'] eqn:E; simpl; auto with rate.
    destruct e; simpl; try (apply not_rate_limit_Raise; reflexivity).
    unfold bind, sleep.
    destruct (period_remaining <? 0); simpl.
    + apply not_rate_limit_Raise; reflexivity.
    + apply IH.
Qed.

(** A call that raises no [RateLimitException] goes through
    [sleep_and_retry] unchanged. *)
Lemma sleep_and_retry_pass {A} (n : nat) (func : M A) (w : World) :
  ~ is_rate_limit (fst (func w)) ->
  sleep_and_retry (S n) func w = func w.
Proof.
  intros H. simpl.
  destruct (func w) as [[a|e|] w'] eqn:E; try reflexivity.
  destruct e; try reflexivity.
  exfalso. apply H. simpl. unfold is_rate_limit. eauto.
Qed.

Lemma sent_set_limiter (L : limiter) (s : RateLimitDecorator) (w : World) :
  sent (set_limiter L s w) = sent w.
Proof. destruct L; reflexivity. Qed.

Lemma clock_set_limiter (L : limiter) (s : RateLimitDecorator) (w : World) :
  clock (set_limiter L s w) = clock w.
Proof. destruct L; reflexivity. Qed.

Lemma get_set_limiter (L : limiter) (s : RateLimitDecorator) (w : World) :
  get_limiter L (set_limiter L s w) = s.
Proof. destruct L; reflexivity. Qed.

Lemma set_set_limiter (L : limiter) (s s' : RateLimitDecorator) (w : World) :
  set_limiter L s (set_limiter L s' w) = set_limiter L s w.
Proof. destruct L; reflexivity. Qed.

Lemma sent_entry (L : limiter) (w : World) : sent (entry L w) = sent w.
Proof.
  unfold entry.
  destruct (_ <=? 0); [apply sent_set_limiter|].
  destruct (_ <? _); rewrite sent_set_limiter; reflexivity.
Qed.

Lemma free_or_used (L : limiter) (w : World) :
  window_free L w \/ window_used L w.
Proof. unfold window_free, window_used. lia. Qed.

(** A call in a free window goes through at once. *)
Lemma limits_free {A} (L : limiter) (func : M A) (w : World) :
  window_free L w ->
  limits L func w = func (entry L w) /\ clock (entry L w) = clock w.
Proof.
  intros Hfree. unfold limits, entry.
  destruct (period - (clock w - last_reset (get_limiter L w)) <=? 0) eqn:E1.
  - cbn [last_reset num_calls]. change (clamped_calls <? 0 + 1) with false.
    cbv iota. split; [reflexivity | apply clock_set_limiter].
  - cbn [last_reset num_calls].
    apply Z.leb_gt in E1.
    assert (E2 : (clamped_calls <? num_calls (get_limiter L w) + 1) = false).
    { apply Z.ltb_ge. unfold clamped_calls.
      destruct Hfree as [H|H]; lia. }
    rewrite E2. split; [reflexivity | apply clock_set_limiter].
Qed.

(** A call in a used window is rejected by [limits] with the time that
    remains of the window. *)
Lemma limits_used {A} (L : limiter) (func : M A) (w : World) :
  window_used L w ->
  limits L func w
  = (Raise (RateLimitException "too many calls"
              (period - (clock w - last_reset (get_limiter L w)))),
     set_limiter L (mkLimiter (last_reset (get_limiter L w))
                              (num_calls (get_limiter L w) + 1)) w)
  /\ clock (entry L w) = last_reset (get_limiter L w) + period.
Proof.
  intros [H1 H2]. unfold limits, entry.
  assert (E1 : (period - (clock w - last_reset (get_limiter L w)) <=? 0) = false)
    by (apply Z.leb_gt; lia).
  rewrite E1. cbn [last_reset num_calls].
  assert (E2 : (clamped_calls <? num_calls (get_limiter L w) + 1) = true)
    by (apply Z.ltb_lt; unfold clamped_calls; lia).
  rewrite E2. split; [reflexivity|].
  rewrite clock_set_limiter. reflexivity.
Qed.

(** After the rejection and the sleep, the second attempt goes through
    at the end of the window. *)
Lemma limits_after_sleep {A} (L : limiter) (func : M A) (w : World) :
  window_used L w ->
  (sleep (period - (clock w - last_reset (get_limiter L w))) ;;;
   limits L func)
    (set_limiter L (mkLimiter (last_reset (get_limiter L w))
                              (num_calls (get_limiter L w) + 1)) w)
  = func (entry L w).
Proof.
  intros [H1 H2]. unfold bind, sleep.
  destruct (_ <? 0) eqn:E3; [apply Z.ltb_lt in E3; lia|].
  unfold limits, entry.
  assert (E1 : (period - (clock w - last_reset (get_limiter L w)) <=? 0) = false)
    by (apply Z.leb_gt; lia).
  assert (E2 : (clamped_calls <? num_calls (get_limiter L w) + 1) = true)
    by (apply Z.ltb_lt; unfold clamped_calls; lia).
  rewrite E1, E2.
  destruct L; cbn -[period Z.add Z.sub Z.leb Z.ltb];
    match goal with
    | |- context [?a <=? 0] =>
        replace a with 0 by lia
    end;
    change (0 <=? 0) with true; cbv iota;
    cbn -[period Z.add Z.sub];
    change (clamped_calls <? 0 + 1) with false; cbv iota.
    all: match goal with
         | |- context [?c + (period - (?c - ?x))] =>
             replace (c + (period - (c - x))) with (x + period) by lia
         end; reflexivity.
Qed.

(** The decorated call runs its body in the entry world, provided
    the body raises no [RateLimitException] there. *)
Lemma entry_run {A} (L : limiter) (func : M A) (n : nat) (w : World) :
  ~ is_rate_limit (fst (func (entry L w))) ->
  sleep_and_retry (S (S n)) (limits L func) w = func (entry L w).
Proof.
  intros Hnr.
  destruct (free_or_used L w) as [Hf|Hu].
  - destruct (limits_free L func w Hf) as [E _].
    rewrite sleep_and_retry_pass; rewrite E; auto.
  - destruct (limits_used L func w Hu) as [E _].
    change (sleep_and_retry (S (S n)) (limits L func) w)
      with (match limits L func w with
            | (Raise (RateLimitException _ p), w') =>
                (sleep p ;;; sleep_and_retry (S n) (limits L func)) w'
            | r => r
            end).
    rewrite E.
    pose proof (limits_after_sleep L func w Hu) as E'.
    unfold bind in *.
    destruct (sleep _ _) as [[[]|e|] w1] eqn:Es; [|exact E'|exact E'].
    rewrite sleep_and_retry_pass; rewrite E'; auto.
Qed.

(** ** Pagination *)

Section Walk.

Variable backend : list (Z * Request) -> Z -> Request -> Response.

Lemma page_body_unfold (rec : value -> M value) (self : Sigfox) (u : value)
    (w : World) :
  device_messages_page_body backend rec self u w
  = let rq := page_request self u in
    let r := backend (sent w) (clock w) rq in
    if status_code r =? 429
    then (Raise (RateLimitException "Exceeded Sigfox API rate limit" (seconds 5)),
          after_send w rq r)
    else walk_response rec r (after_send w rq r).
Proof.
  unfold device_messages_page_body, requests_get, send, bind. cbv zeta.
  fold (page_request self u).
  destruct (status_code _ =? 429); reflexivity.
Qed.

Lemma messages_body_unfold (rec : value -> M value) (self : Sigfox)
    (device_id : string) (ps : option (list (string * value))) (w : World) :
  device_messages_body backend rec self device_id ps w
  = let rq := messages_request self device_id ps in
    let r := backend (sent w) (clock w) rq in
    if status_code r =? 429
    then (Raise (RateLimitException "Exceeded Sigfox API rate limit" (seconds 5)),
          after_send w rq r)
    else walk_response rec r (after_send w rq r).
Proof.
  unfold device_messages_body, requests_get, send, bind. cbv zeta.
  fold (messages_request self device_id ps).
  destruct (status_code _ =? 429); reflexivity.
Qed.

(** The last page: no cursor, the walk ends with the data of the page. *)
Lemma walk_response_last (rec : value -> M value) (r : Response)
    (d : list value) (w : World) :
  is_page r d None ->
  walk_response rec r w = (Return (VList d), w).
Proof.
  intros (_ & env & Hj & Hd & Hn).
  unfold walk_response, try_except, bind, response_json, lift, getitem.
  rewrite Hj. cbn. rewrite Hd. cbn.
  destruct Hn as [Hn | (pg & Hp & Hn)].
  - rewrite Hn. reflexivity.
  - rewrite Hp. cbn. rewrite Hn. reflexivity.
Qed.

(** A page with a cursor: the next pages are appended. *)
Lemma walk_response_next (rec : value -> M value) (r : Response)
    (d more : list value) (u : value) (w w' : World) :
  is_page r d (Some u) ->
  rec u w = (Return (VList more), w') ->
  walk_response rec r w = (Return (VList (d ++ more)), w').
Proof.
  intros (_ & env & Hj & Hd & pg & Hp & Hn) Hrec.
  unfold walk_response, try_except, bind, response_json, lift, getitem.
  rewrite Hj. cbn. rewrite Hd. cbn. rewrite Hp. cbn. rewrite Hn. cbn.
  rewrite Hrec. reflexivity.
Qed.

(** A page with a cursor whose fetch raises [KeyError]: the handler
    that ends the walk on a missing cursor swallows it. *)
Lemma walk_response_swallow (rec : value -> M value) (r : Response)
    (d : list value) (u : value) (k : string) (w w' : World) :
  is_page r d (Some u) ->
  rec u w = (Raise (KeyError k), w') ->
  walk_response rec r w = (Return (VList d), w').
Proof.
  intros (_ & env & Hj & Hd & pg & Hp & Hn) Hrec.
  unfold walk_response, try_except, bind, response_json, lift, getitem.
  rewrite Hj. cbn. rewrite Hd. cbn. rewrite Hp. cbn. rewrite Hn. cbn.
  rewrite Hrec. reflexivity.
Qed.

(** An envelope without [data]: [KeyError('data')], printed and raised
    again. *)
Lemma walk_response_lacks (rec : value -> M value) (r : Response) (w : World) :
  lacks_data r ->
  exists w', walk_response rec r w = (Raise (KeyError "data"), w').
Proof.
  intros (_ & env & Hj & Hd).
  unfold walk_response, try_except, bind, response_json, lift, getitem.
  rewrite Hj. cbn. rewrite Hd. cbn. eexists. reflexivity.
Qed.


(** A decorated call of [device_messages_page] whose answer is not 429
    and whose walk raises no [RateLimitException]. *)
Lemma page_call (n : nat) (self : Sigfox) (u : value) (w : World) :
  let wa := entry PageLimiter w in
  let rq := page_request self u in
  let r := backend (sent w) (clock wa) rq in
  let rec := device_messages_page backend (S n) self in
  status_code r <> 429 ->
  ~ is_rate_limit (fst (walk_response rec r (after_send wa rq r))) ->
  device_messages_page backend (S (S n)) self u w
  = walk_response rec r (after_send wa rq r).
Proof.
  intros wa rq r rec Hs Hnr.
  assert (E : device_messages_page_body backend rec self u wa
              = walk_response rec r (after_send wa rq r)).
  { rewrite page_body_unfold. cbv zeta.
    replace (sent wa) with (sent w) by (symmetry; apply sent_entry).
    fold rq r. apply Z.eqb_neq in Hs. rewrite Hs. reflexivity. }
  change (device_messages_page backend (S (S n)) self u w)
    with (sleep_and_retry (S (S n))
            (limits PageLimiter
               (device_messages_page_body backend rec self u)) w).
  rewrite entry_run; fold wa; rewrite E; auto.
Qed.

Lemma messages_call (n : nat) (self : Sigfox) (device_id : string)
    (ps : option (list (string * value))) (w : World) :
  let wa := entry MessagesLimiter w in
  let rq := messages_request self device_id ps in
  let r := backend (sent w) (clock wa) rq in
  let rec := device_messages_page backend (S (S n)) self in
  status_code r <> 429 ->
  ~ is_rate_limit (fst (walk_response rec r (after_send wa rq r))) ->
  device_messages backend (S (S n)) self device_id ps w
  = walk_response rec r (after_send wa rq r).
Proof.
  intros wa rq r rec Hs Hnr.
  assert (E : device_messages_body backend rec self device_id ps wa
              = walk_response rec r (after_send wa rq r)).
  { rewrite messages_body_unfold. cbv zeta.
    replace (sent wa) with (sent w) by (symmetry; apply sent_entry).
    fold rq r. apply Z.eqb_neq in Hs. rewrite Hs. reflexivity. }
  unfold device_messages. fold rec.
  rewrite entry_run; fold wa; rewrite E; auto.
Qed.

(** A page with a cursor whose fetch raises anything but [KeyError]:
    the exception passes both handlers. *)
Lemma walk_response_propagate (rec : value -> M value) (r : Response)
    (d : list value) (u : value) (e : exn) (w w' : World) :
  is_page r d (Some u) ->
  rec u w = (Raise e, w') ->
  is_KeyError e = false ->
  exists w'', walk_response rec r w = (Raise e, w'').
Proof.
  intros (_ & env & Hj & Hd & pg & Hp & Hn) Hrec He.
  unfold walk_response, try_except, bind, response_json, lift, getitem.
  rewrite Hj. cbn. rewrite Hd. cbn. rewrite Hp. cbn. rewrite Hn. cbn.
  rewrite Hrec, He. cbn. eexists. reflexivity.
Qed.

Lemma sent_after_send_entry (L : limiter) (w : World) (rq : Request)
    (r : Response) :
  sent (after_send (entry L w) rq r) = (clock (entry L w), rq) :: sent w.
Proof. unfold after_send; cbn [sent]. rewrite sent_entry. reflexivity. Qed.

(** The same calls, whatever method fetches the next page. *)
Lemma page_call_rec (rec : value -> M value) (n : nat) (self : Sigfox)
    (u : value) (w : World) :
  let wa := entry PageLimiter w in
  let rq := page_request self u in
  let r := backend (sent w) (clock wa) rq in
  status_code r <> 429 ->
  ~ is_rate_limit (fst (walk_response rec r (after_send wa rq r))) ->
  sleep_and_retry (S (S n))
    (limits PageLimiter (device_messages_page_body backend rec self u)) w
  = walk_response rec r (after_send wa rq r).
Proof.
  intros wa rq r Hs Hnr.
  assert (E : device_messages_page_body backend rec self u wa
              = walk_response rec r (after_send wa rq r)).
  { rewrite page_body_unfold. cbv zeta.
    replace (sent wa) with (sent w) by (symmetry; apply sent_entry).
    fold rq r. apply Z.eqb_neq in Hs. rewrite Hs. reflexivity. }
  rewrite entry_run; fold wa; rewrite E; auto.
Qed.

Lemma messages_call_rec (rec : value -> M value) (n : nat) (self : Sigfox)
    (device_id : string) (ps : option (list (string * value))) (w : World) :
  let wa := entry MessagesLimiter w in
  let rq := messages_request self device_id ps in
  let r := backend (sent w) (clock wa) rq in
  status_code r <> 429 ->
  ~ is_rate_limit (fst (walk_response rec r (after_send wa rq r))) ->
  sleep_and_retry (S (S n))
    (limits MessagesLimiter
       (device_messages_body backend rec self device_id ps)) w
  = walk_response rec r (after_send wa rq r).
Proof.
  intros wa rq r Hs Hnr.
  assert (E : device_messages_body backend rec self device_id ps wa
              = walk_response rec r (after_send wa rq r)).
  { rewrite messages_body_unfold. cbv zeta.
    replace (sent wa) with (sent w) by (symmetry; apply sent_entry).
    fold rq r. apply Z.eqb_neq in Hs. rewrite Hs. reflexivity. }
  rewrite entry_run; fold wa; rewrite E; auto.
Qed.

(** A page with a cursor whose fetch raises anything but [KeyError]:
    the body of the page is printed and the exception raised again. *)
Lemma walk_response_reraise (rec : value -> M value) (r : Response)
    (d : list value) (u : value) (e : exn) (w w' : World) :
  is_page r d (Some u) ->
  rec u w = (Raise e, w') ->
  is_KeyError e = false ->
  walk_response rec r w
  = (Raise e,
     mkWorld (clock w') (sent w') (PPrint (VStr (text r)) :: stdout w')
             (page_limiter w') (messages_limiter w')).
Proof.
  intros (_ & env & Hj & Hd & pg & Hp & Hn) Hrec He.
  unfold walk_response, try_except, bind, response_json, lift, getitem.
  rewrite Hj. cbn. rewrite Hd. cbn. rewrite Hp. cbn. rewrite Hn. cbn.
  rewrite Hrec, He. reflexivity.
Qed.

(** An envelope without [data]: the text of its body is printed. *)
Lemma walk_response_lacks_prints (rec : value -> M value) (r : Response)
    (w : World) :
  lacks_data r ->
  stdout (snd (walk_response rec r w)) = PPrint (VStr (text r)) :: stdout w.
Proof.
  intros (_ & env & Hj & Hd).
  unfold walk_response, try_except, bind, response_json, lift, getitem.
  rewrite Hj. cbn. rewrite Hd. reflexivity.
Qed.

(** A response of the wrong shape makes the walk raise [TypeError]. *)
Lemma walk_response_malformed (rec : value -> M value) (r : Response)
    (w : World) :
  malformed r ->
  exists w', walk_response rec r w = (Raise TypeError, w').
Proof.
  intros (_ & v & Hj & [Hv | (env & d & p & -> & Hd & Hp & Hn)]);
    unfold walk_response, try_except, bind, response_json, lift, getitem;
    rewrite Hj; cbn.
  - destruct v; cbn in Hv; try contradiction; cbn; eexists; reflexivity.
  - rewrite Hd. cbn. rewrite Hp. cbn.
    destruct p; cbn in Hn; try contradiction; cbn; eexists; reflexivity.
Qed.

Lemma stdout_entry (L : limiter) (w : World) : stdout (entry L w) = stdout w.
Proof.
  unfold entry.
  destruct (_ <=? 0); [destruct L; reflexivity|].
  destruct (_ <? _); destruct L; reflexivity.
Qed.

End Walk.

(** ** The log of requests only grows *)

Lemma grows_ret {A} (a : A) : grows (ret a).
Proof. intros w; exists []; reflexivity. Qed.

Lemma grows_raise {A} (e : exn) : grows (@raise A e).
Proof. intros w; exists []; reflexivity. Qed.

Lemma grows_out_of_fuel {A} : grows (@out_of_fuel A).
Proof. intros w; exists []; reflexivity. Qed.

Lemma grows_lift {A} (r : exn + A) : grows (lift r).
Proof. destruct r; [apply grows_raise | apply grows_ret]. Qed.

Lemma grows_bind {A B} (m : M A) (f : A -> M B) :
  grows m -> (forall a, grows (f a)) -> grows (bind m f).
Proof.
  intros Hm Hf w. unfold bind.
  destruct (Hm w) as (l & Hl).
  destruct (m w) as [[a|e|] w1]; cbn [snd] in *.
  - destruct (Hf a w1) as (l' & Hl'). exists (l' ++ l)%list.
    rewrite Hl', Hl. apply app_assoc.
  - exists l; exact Hl.
  - exists l; exact Hl.
Qed.

Lemma grows_try_except {A} (m : M A) (handles : exn -> bool) (h : exn -> M A) :
  grows m -> (forall e, grows (h e)) -> grows (try_except m handles h).
Proof.
  intros Hm Hh w. unfold try_except.
  destruct (Hm w) as (l & Hl).
  destruct (m w) as [[a|e|] w1]; cbn [snd] in *; try (exists l; exact Hl).
  destruct (handles e); cbn [snd]; [|exists l; exact Hl].
  destruct (Hh e w1) as (l' & Hl'). exists (l' ++ l)%list.
  rewrite Hl', Hl. apply app_assoc.
Qed.

Lemma grows_pprint (v : value) : grows (pprint v).
Proof. intros w; exists []; reflexivity. Qed.

Lemma grows_sleep (d : Z) : grows (sleep d).
Proof. intros w; exists []; unfold sleep; destruct (d <? 0); reflexivity. Qed.

Lemma grows_limits {A} (L : limiter) (func : M A) :
  grows func -> grows (limits L func).
Proof.
  intros Hf w. unfold limits. cbv zeta.
  destruct (clamped_calls <? _).
  - exists []. cbn [snd]. apply sent_set_limiter.
  - destruct (Hf (set_limiter L
                    (mkLimiter
                       (last_reset
                          (if period - (clock w - last_reset (get_limiter L w)) <=? 0
                           then mkLimiter (clock w) 0 else get_limiter L w))
                       (num_calls
                          (if period - (clock w - last_reset (get_limiter L w)) <=? 0
                           then mkLimiter (clock w) 0 else get_limiter L w) + 1))
                    w)) as (l & Hl).
    exists l. rewrite Hl, sent_set_limiter. reflexivity.
Qed.

Lemma grows_sleep_and_retry {A} (fuel : nat) (func : M A) :
  grows func -> grows (sleep_and_retry fuel func).
Proof.
  intros Hf. induction fuel as [|n IH]; [apply grows_out_of_fuel|].
  intros w. cbn [sleep_and_retry].
  destruct (Hf w) as (l & Hl).
  destruct (func w) as [[a|e|] w1]; cbn [snd] in *; try (exists l; exact Hl).
  destruct e; try (exists l; exact Hl).
  destruct (grows_bind (sleep period_remaining) (fun _ => sleep_and_retry n func)
              (grows_sleep _) (fun _ => IH) w1) as (l' & Hl').
  exists (l' ++ l)%list. rewrite Hl', Hl. apply app_assoc.
Qed.

Create HintDb grows.
#[local] Hint Resolve grows_ret grows_raise grows_out_of_fuel grows_lift
  grows_pprint grows_sleep : grows.

Section Log.

Variable backend : list (Z * Request) -> Z -> Request -> Response.

Lemma grows_walk_response (rec : value -> M value) (r : Response) :
  (forall u, grows (rec u)) -> grows (walk_response rec r).
Proof.
  intros Hrec. unfold walk_response.
  apply grows_try_except.
  - apply grows_bind; [unfold response_json; destruct (json r); auto with grows|].
    intros j. apply grows_bind; [auto with grows|]. intros out.
    apply grows_try_except; [|auto with grows].
    apply grows_bind; [auto with grows|]; intros paging.
    apply grows_bind; [auto with grows|]; intros next.
    apply grows_bind; [apply Hrec|]. auto with grows.
  - intros e. apply grows_bind; auto with grows.
Qed.

(** Both bodies begin with their request. *)
Lemma page_body_starts (rec : value -> M value) (self : Sigfox) (u : value) :
  (forall u', grows (rec u')) ->
  starts_with (page_request self u)
    (device_messages_page_body backend rec self u).
Proof.
  intros Hrec w. rewrite page_body_unfold. cbv zeta.
  destruct (status_code _ =? 429).
  - exists []. reflexivity.
  - destruct (grows_walk_response rec
                (backend (sent w) (clock w) (page_request self u)) Hrec
                (after_send w (page_request self u)
                   (backend (sent w) (clock w) (page_request self u))))
      as (l & Hl).
    exists l. exact Hl.
Qed.

Lemma messages_body_starts (rec : value -> M value) (self : Sigfox)
    (device_id : string) (ps : option (list (string * value))) :
  (forall u', grows (rec u')) ->
  starts_with (messages_request self device_id ps)
    (device_messages_body backend rec self device_id ps).
Proof.
  intros Hrec w. rewrite messages_body_unfold. cbv zeta.
  destruct (status_code _ =? 429).
  - exists []. reflexivity.
  - destruct (grows_walk_response rec
                (backend (sent w) (clock w) (messages_request self device_id ps))
                Hrec
                (after_send w (messages_request self device_id ps)
                   (backend (sent w) (clock w)
                      (messages_request self device_id ps))))
      as (l & Hl).
    exists l. exact Hl.
Qed.

Lemma starts_with_grows {A} (rq : Request) (m : M A) :
  starts_with rq m -> grows m.
Proof.
  intros H w. destruct (H w) as (l & Hl).
  exists (l ++ [(clock w, rq)])%list. rewrite Hl, <- app_assoc. reflexivity.
Qed.

Lemma grows_device_messages_page (fuel : nat) (self : Sigfox) :
  forall u, grows (device_messages_page backend fuel self u).
Proof.
  induction fuel as [|n IH]; intros u; [apply grows_out_of_fuel|].
  change (device_messages_page backend (S n) self u)
    with (sleep_and_retry (S n)
            (limits PageLimiter
               (device_messages_page_body backend
                  (device_messages_page backend n self) self u))).
  apply grows_sleep_and_retry, grows_limits.
  apply starts_with_grows with (rq := page_request self u).
  apply page_body_starts, IH.
Qed.

End Log.

(** What [sleep_and_retry] does after the first attempt only adds to
    the log. *)
Lemma sleep_and_retry_extends {A} (n : nat) (func : M A) (w : World) :
  grows func ->
  exists l, sent (snd (sleep_and_retry (S n) func w))
            = (l ++ sent (snd (func w)))%list.
Proof.
  intros Hf. cbn [sleep_and_retry].
  destruct (func w) as [[a|e|] w1]; cbn [snd]; try (exists []; reflexivity).
  destruct e; try (exists []; reflexivity).
  apply (grows_bind (sleep period_remaining) (fun _ => sleep_and_retry n func)
           (grows_sleep _) (fun _ => grows_sleep_and_retry n func Hf) w1).
Qed.

(** In a free window the decorated call sends its request at once. *)
Lemma issued_free {A} (L : limiter) (rq : Request) (func : M A) (n : nat)
    (w : World) :
  starts_with rq func ->
  window_free L w ->
  issued w (snd (sleep_and_retry (S n) (limits L func) w)) (clock w) rq.
Proof.
  intros Hs Hfree.
  destruct (sleep_and_retry_extends n (limits L func) w) as (l & Hl).
  { apply grows_limits. eapply starts_with_grows, Hs. }
  destruct (limits_free L func w Hfree) as [E Hc].
  rewrite E in Hl.
  destruct (Hs (entry L w)) as (l' & Hl').
  rewrite Hl', sent_entry, Hc in Hl.
  exists (l ++ l')%list. rewrite Hl. apply app_assoc.
Qed.

(** In a used window the decorated call sleeps until the window ends
    and sends its request then. *)
Lemma issued_used {A} (L : limiter) (rq : Request) (func : M A) (n : nat)
    (w : World) :
  starts_with rq func ->
  window_used L w ->
  issued w (snd (sleep_and_retry (S (S n)) (limits L func) w))
    (last_reset (get_limiter L w) + period) rq.
Proof.
  intros Hs Hused.
  assert (Hg : grows (limits L func))
    by (apply grows_limits; eapply starts_with_grows, Hs).
  destruct (limits_used L func w Hused) as [E Hc].
  pose proof (limits_after_sleep L func w Hused) as E'.
  change (sleep_and_retry (S (S n)) (limits L func) w)
    with (match limits L func w with
          | (Raise (RateLimitException _ p), w') =>
              (sleep p ;;; sleep_and_retry (S n) (limits L func)) w'
          | r => r
          end).
  rewrite E. unfold bind in *.
  destruct (sleep _ _) as [[[]|e|] w1] eqn:Es.
  - destruct (sleep_and_retry_extends n (limits L func) w1 Hg) as (l & Hl).
    rewrite E' in Hl.
    destruct (Hs (entry L w)) as (l' & Hl').
    rewrite Hl', sent_entry, Hc in Hl.
    exists (l ++ l')%list. rewrite Hl. apply app_assoc.
  - unfold sleep in Es. destruct (_ <? 0) eqn:E3; [|discriminate].
    destruct Hused as [H1 H2]. apply Z.ltb_lt in E3. lia.
  - unfold sleep in Es. destruct (_ <? 0); discriminate.
Qed.

(** ** Walks under the recursion limit *)

Section WalkWithin.

Variable backend : list (Z * Request) -> Z -> Request -> Response.

Lemma page_within_call (c n : nat) (self : Sigfox) (u : value) (w : World) :
  let wa := entry PageLimiter w in
  let rq := page_request self u in
  let r := backend (sent w) (clock wa) rq in
  let rec := device_messages_page_within backend c (S n) self in
  status_code r <> 429 ->
  ~ is_rate_limit (fst (walk_response rec r (after_send wa rq r))) ->
  device_messages_page_within backend (S c) (S (S n)) self u w
  = walk_response rec r (after_send wa rq r).
Proof.
  intros wa rq r rec Hs Hnr.
  change (device_messages_page_within backend (S c) (S (S n)) self u w)
    with (sleep_and_retry (S (S n))
            (limits PageLimiter
               (device_messages_page_body backend rec self u)) w).
  apply page_call_rec; assumption.
Qed.

Lemma messages_within_call (c n : nat) (self : Sigfox) (device_id : string)
    (ps : option (list (string * value))) (w : World) :
  let wa := entry MessagesLimiter w in
  let rq := messages_request self device_id ps in
  let r := backend (sent w) (clock wa) rq in
  let rec := device_messages_page_within backend c (S (S n)) self in
  status_code r <> 429 ->
  ~ is_rate_limit (fst (walk_response rec r (after_send wa rq r))) ->
  device_messages_within backend (S c) (S (S n)) self device_id ps w
  = walk_response rec r (after_send wa rq r).
Proof.
  intros wa rq r rec Hs Hnr.
  unfold device_messages_within. fold rec.
  apply messages_call_rec; assumption.
Qed.

(** The walk from a cursor over a chain that fits and that ends with a
    page without cursor returns all the records, sends one request for
    each page and prints nothing. *)
Lemma page_within_all (pages : list (list value)) (dlast : list value)
    (self : Sigfox) :
  forall (capacity : nat) (u : value) (w : World) (fuel : nat),
    chain backend (fun r => is_page r dlast None) (sent w)
      (page_request self u) self pages ->
    (length pages < capacity)%nat ->
    (length pages + 2 <= fuel)%nat ->
    exists w',
      device_messages_page_within backend capacity fuel self u w
      = (Return (VList (concat pages ++ dlast)), w')
      /\ length (sent w') = (length (sent w) + length pages + 1)%nat
      /\ stdout w' = stdout w.
Proof.
  induction pages as [|d rest IH]; intros capacity u w fuel Hc Hcap Hfuel;
    (destruct fuel as [|[|n]]; [simpl in Hfuel; lia .. |]);
    (destruct capacity as [|c]; [simpl in Hcap; lia|]);
    cbn [chain] in Hc;
    specialize (Hc (clock (entry PageLimiter w))).
  - rewrite page_within_call.
    + erewrite walk_response_last by exact Hc.
      eexists. split; [reflexivity|]. split.
      * rewrite sent_after_send_entry. cbn. lia.
      * unfold after_send. cbn [stdout]. apply stdout_entry.
    + apply Hc.
    + erewrite walk_response_last by exact Hc. cbn. auto with rate.
  - destruct Hc as (u' & _ & Hp & Hc).
    set (w1 := after_send (entry PageLimiter w) (page_request self u)
                 (backend (sent w) (clock (entry PageLimiter w))
                    (page_request self u))) in *.
    assert (Hs1 : sent w1 = (clock (entry PageLimiter w), page_request self u)
                            :: sent w)
      by apply sent_after_send_entry.
    assert (Ho1 : stdout w1 = stdout w)
      by (subst w1; unfold after_send; cbn [stdout]; apply stdout_entry).
    rewrite <- Hs1 in Hc.
    destruct (IH c u' w1 (S n) Hc) as (w' & E & Hlen & Hout);
      [simpl in Hcap; lia | simpl in Hfuel |- *; lia |].
    rewrite page_within_call; fold w1.
    + erewrite walk_response_next by eassumption.
      eexists. split; [cbn [concat]; rewrite <- app_assoc; reflexivity|].
      split.
      * rewrite Hlen, Hs1. cbn. lia.
      * rewrite Hout. exact Ho1.
    + apply Hp.
    + erewrite walk_response_next by eassumption. cbn. auto with rate.
Qed.

(** The walk from a cursor over a chain that fits and that ends with an
    envelope without [data]: the innermost call raises [KeyError] after
    printing the body; a call further up swallows it and returns what
    the pages before held. *)
Lemma page_within_truncated (final : Response -> Prop)
    (pages : list (list value)) (self : Sigfox) :
  (forall r, final r -> lacks_data r) ->
  forall (capacity : nat) (u : value) (w : World) (fuel : nat),
    chain backend final (sent w) (page_request self u) self pages ->
    (length pages < capacity)%nat ->
    (length pages + 2 <= fuel)%nat ->
    exists w' r,
      final r
      /\ device_messages_page_within backend capacity fuel self u w
         = (match pages with
            | [] => Raise (KeyError "data")
            | _ => Return (VList (concat pages))
            end, w')
      /\ stdout w' = PPrint (VStr (text r)) :: stdout w.
Proof.
  intros Hfin.
  induction pages as [|d rest IH]; intros capacity u w fuel Hc Hcap Hfuel;
    (destruct fuel as [|[|n]]; [simpl in Hfuel; lia .. |]);
    (destruct capacity as [|c]; [simpl in Hcap; lia|]);
    cbn [chain] in Hc;
    specialize (Hc (clock (entry PageLimiter w))).
  - set (r := backend (sent w) (clock (entry PageLimiter w))
                (page_request self u)) in *.
    set (w1 := after_send (entry PageLimiter w) (page_request self u) r).
    set (rec := device_messages_page_within backend c (S n) self).
    pose proof (Hfin r Hc) as Hl.
    destruct (walk_response_lacks rec r w1 Hl) as (w' & E).
    pose proof (walk_response_lacks_prints rec r w1 Hl) as Hout.
    rewrite E in Hout. cbn [snd] in Hout.
    rewrite page_within_call; fold r w1 rec.
    + rewrite E. exists w', r. split; [exact Hc|]. split; [reflexivity|].
      rewrite Hout. subst w1. unfold after_send. cbn [stdout].
      rewrite stdout_entry. reflexivity.
    + apply Hl.
    + rewrite E. apply not_rate_limit_Raise. reflexivity.
  - destruct Hc as (u' & _ & Hp & Hc).
    set (w1 := after_send (entry PageLimiter w) (page_request self u)
                 (backend (sent w) (clock (entry PageLimiter w))
                    (page_request self u))) in *.
    assert (Hs1 : sent w1 = (clock (entry PageLimiter w), page_request self u)
                            :: sent w)
      by apply sent_after_send_entry.
    assert (Ho1 : stdout w1 = stdout w)
      by (subst w1; unfold after_send; cbn [stdout]; apply stdout_entry).
    rewrite <- Hs1 in Hc.
    destruct (IH c u' w1 (S n) Hc) as (w' & r & Hr & E & Hout);
      [simpl in Hcap; lia | simpl in Hfuel |- *; lia |].
    exists w', r. split; [exact Hr|].
    rewrite Ho1 in Hout. split; [|exact Hout].
    destruct rest as [|d' rest'].
    + rewrite page_within_call; fold w1.
      * erewrite walk_response_swallow by eassumption.
        cbn [concat]. rewrite app_nil_r. reflexivity.
      * apply Hp.
      * erewrite walk_response_swallow by eassumption. cbn. auto with rate.
    + rewrite page_within_call; fold w1.
      * erewrite walk_response_next by eassumption. reflexivity.
      * apply Hp.
      * erewrite walk_response_next by eassumption. cbn. auto with rate.
Qed.

(** The walk from a cursor over a chain that fits and that ends with a
    response of the wrong shape raises [TypeError]. *)
Lemma page_within_malformed (pages : list (list value)) (self : Sigfox) :
  forall (capacity : nat) (u : value) (w : World) (fuel : nat),
    chain backend malformed (sent w) (page_request self u) self pages ->
    (length pages < capacity)%nat ->
    (length pages + 2 <= fuel)%nat ->
    exists w',
      device_messages_page_within backend capacity fuel self u w
      = (Raise TypeError, w').
Proof.
  induction pages as [|d rest IH]; intros capacity u w fuel Hc Hcap Hfuel;
    (destruct fuel as [|[|n]]; [simpl in Hfuel; lia .. |]);
    (destruct capacity as [|c]; [simpl in Hcap; lia|]);
    cbn [chain] in Hc;
    specialize (Hc (clock (entry PageLimiter w))).
  - destruct (walk_response_malformed
                (device_messages_page_within backend c (S n) self) _
                (after_send (entry PageLimiter w) (page_request self u)
                   (backend (sent w) (clock (entry PageLimiter w))
                      (page_request self u))) Hc) as (w' & E).
    rewrite page_within_call.
    + rewrite E. eexists; reflexivity.
    + apply Hc.
    + rewrite E. apply not_rate_limit_Raise. reflexivity.
  - destruct Hc as (u' & _ & Hp & Hc).
    rewrite <- sent_after_send_entry
      with (r := backend (sent w) (clock (entry PageLimiter w))
                   (page_request self u)) in Hc.
    destruct (IH c u' _ (S n) Hc) as (w' & E);
      [simpl in Hcap; lia | simpl in Hfuel |- *; lia |].
    rewrite page_within_call.
    + erewrite walk_response_reraise by (eassumption || reflexivity).
      eexists; reflexivity.
    + apply Hp.
    + erewrite walk_response_reraise by (eassumption || reflexivity).
      apply not_rate_limit_Raise. reflexivity.
Qed.

(** The walk from a cursor over a chain that does not fit: the call
    that does not fit raises [RecursionError]; every call above prints
    the body of its page and raises it again.  [capacity] requests have
    been sent and [capacity] bodies printed. *)
Lemma page_within_overflow (final : Response -> Prop) (self : Sigfox) :
  forall (capacity : nat) (pages : list (list value)) (u : value) (w : World)
         (fuel : nat),
    chain backend final (sent w) (page_request self u) self pages ->
    (capacity <= length pages)%nat ->
    (capacity + 1 <= fuel)%nat ->
    exists w',
      device_messages_page_within backend capacity fuel self u w
      = (Raise RecursionError, w')
      /\ length (sent w') = (length (sent w) + capacity)%nat
      /\ length (stdout w') = (length (stdout w) + capacity)%nat.
Proof.
  induction capacity as [|c IH]; intros pages u w fuel Hc Hcap Hfuel.
  - destruct fuel as [|n]; [lia|].
    exists w. cbn. repeat split; lia.
  - destruct pages as [|d rest]; [simpl in Hcap; lia|].
    destruct fuel as [|[|n]]; [lia .. |].
    cbn [chain] in Hc.
    destruct (Hc (clock (entry PageLimiter w))) as (u' & _ & Hp & Hc').
    set (w1 := after_send (entry PageLimiter w) (page_request self u)
                 (backend (sent w) (clock (entry PageLimiter w))
                    (page_request self u))) in *.
    assert (Hs1 : sent w1 = (clock (entry PageLimiter w), page_request self u)
                            :: sent w)
      by apply sent_after_send_entry.
    assert (Ho1 : stdout w1 = stdout w)
      by (subst w1; unfold after_send; cbn [stdout]; apply stdout_entry).
    rewrite <- Hs1 in Hc'.
    destruct (IH rest u' w1 (S n) Hc') as (w' & E & Hlen & Hout);
      [simpl in Hcap; lia | lia |].
    rewrite page_within_call; fold w1.
    + erewrite walk_response_reraise by (eassumption || reflexivity).
      eexists. split; [reflexivity|]. cbn [sent stdout length].
      rewrite Hlen, Hout, Hs1, Ho1. cbn [length]. split; lia.
    + apply Hp.
    + erewrite walk_response_reraise by (eassumption || reflexivity).
      apply not_rate_limit_Raise. reflexivity.
Qed.

(** The same four walks, from [device_messages]. *)
Lemma messages_within_all (pages : list (list value)) (dlast : list value)
    (self : Sigfox) (device_id : string) (ps : option (list (string * value)))
    (capacity : nat) (w : World) (fuel : nat) :
  chain backend (fun r => is_page r dlast None) (sent w)
    (messages_request self device_id ps) self pages ->
  (length pages < capacity)%nat ->
  (length pages + 2 <= fuel)%nat ->
  exists w',
    device_messages_within backend capacity fuel self device_id ps w
    = (Return (VList (concat pages ++ dlast)), w')
    /\ length (sent w') = (length (sent w) + length pages + 1)%nat
    /\ stdout w' = stdout w.
Proof.
  intros Hc Hcap Hfuel.
  destruct fuel as [|[|n]]; [simpl in Hfuel; lia .. |].
  destruct capacity as [|c]; [simpl in Hcap; lia|].
  destruct pages as [|d rest]; cbn [chain] in Hc;
    specialize (Hc (clock (entry MessagesLimiter w))).
  - rewrite messages_within_call.
    + erewrite walk_response_last by exact Hc.
      eexists. split; [reflexivity|]. split.
      * rewrite sent_after_send_entry. cbn. lia.
      * unfold after_send. cbn [stdout]. apply stdout_entry.
    + apply Hc.
    + erewrite walk_response_last by exact Hc. cbn. auto with rate.
  - destruct Hc as (u & _ & Hp & Hc).
    set (w1 := after_send (entry MessagesLimiter w)
                 (messages_request self device_id ps)
                 (backend (sent w) (clock (entry MessagesLimiter w))
                    (messages_request self device_id ps))) in *.
    assert (Hs1 : sent w1 = (clock (entry MessagesLimiter w),
                             messages_request self device_id ps) :: sent w)
      by apply sent_after_send_entry.
    assert (Ho1 : stdout w1 = stdout w)
      by (subst w1; unfold after_send; cbn [stdout]; apply stdout_entry).
    rewrite <- Hs1 in Hc.
    destruct (page_within_all rest dlast self c u w1 (S (S n)) Hc)
      as (w' & E & Hlen & Hout);
      [simpl in Hcap; lia | simpl in Hfuel |- *; lia |].
    rewrite messages_within_call; fold w1.
    + erewrite walk_response_next by eassumption.
      eexists. split; [cbn [concat]; rewrite <- app_assoc; reflexivity|].
      split.
      * rewrite Hlen, Hs1. cbn. lia.
      * rewrite Hout. exact Ho1.
    + apply Hp.
    + erewrite walk_response_next by eassumption. cbn. auto with rate.
Qed.

Lemma messages_within_truncated (final : Response -> Prop)
    (pages : list (list value)) (self : Sigfox) (device_id : string)
    (ps : option (list (string * value))) (capacity : nat) (w : World)
    (fuel : nat) :
  (forall r, final r -> lacks_data r) ->
  pages <> [] ->
  chain backend final (sent w) (messages_request self device_id ps) self pages ->
  (length pages < capacity)%nat ->
  (length pages + 2 <= fuel)%nat ->
  exists w' r,
    final r
    /\ device_messages_within backend capacity fuel self device_id ps w
       = (Return (VList (concat pages)), w')
    /\ stdout w' = PPrint (VStr (text r)) :: stdout w.
Proof.
  intros Hfin Hne Hc Hcap Hfuel.
  destruct pages as [|d rest]; [congruence|].
  destruct fuel as [|[|n]]; [simpl in Hfuel; lia .. |].
  destruct capacity as [|c]; [simpl in Hcap; lia|].
  cbn [chain] in Hc.
  destruct (Hc (clock (entry MessagesLimiter w))) as (u & _ & Hp & Hc').
  set (w1 := after_send (entry MessagesLimiter w)
               (messages_request self device_id ps)
               (backend (sent w) (clock (entry MessagesLimiter w))
                  (messages_request self device_id ps))) in *.
  assert (Hs1 : sent w1 = (clock (entry MessagesLimiter w),
                           messages_request self device_id ps) :: sent w)
    by apply sent_after_send_entry.
  assert (Ho1 : stdout w1 = stdout w)
    by (subst w1; unfold after_send; cbn [stdout]; apply stdout_entry).
  rewrite <- Hs1 in Hc'.
  destruct (page_within_truncated final rest self Hfin c u w1 (S (S n)) Hc')
    as (w' & r & Hr & E & Hout);
    [simpl in Hcap; lia | simpl in Hfuel |- *; lia |].
  exists w', r. split; [exact Hr|].
  rewrite Ho1 in Hout. split; [|exact Hout].
  destruct rest as [|d' rest'].
  - rewrite messages_within_call; fold w1.
    + erewrite walk_response_swallow by eassumption.
      cbn [concat]. rewrite app_nil_r. reflexivity.
    + apply Hp.
    + erewrite walk_response_swallow by eassumption. cbn. auto with rate.
  - rewrite messages_within_call; fold w1.
    + erewrite walk_response_next by eassumption. reflexivity.
    + apply Hp.
    + erewrite walk_response_next by eassumption. cbn. auto with rate.
Qed.

Lemma messages_within_malformed (pages : list (list value)) (self : Sigfox)
    (device_id : string) (ps : option (list (string * value)))
    (capacity : nat) (w : World) (fuel : nat) :
  chain backend malformed (sent w) (messages_request self device_id ps) self
    pages ->
  (length pages < capacity)%nat ->
  (length pages + 2 <= fuel)%nat ->
  exists w',
    device_messages_within backend capacity fuel self device_id ps w
    = (Raise TypeError, w').
Proof.
  intros Hc Hcap Hfuel.
  destruct fuel as [|[|n]]; [simpl in Hfuel; lia .. |].
  destruct capacity as [|c]; [simpl in Hcap; lia|].
  destruct pages as [|d rest]; cbn [chain] in Hc;
    specialize (Hc (clock (entry MessagesLimiter w))).
  - destruct (walk_response_malformed
                (device_messages_page_within backend c (S (S n)) self) _
                (after_send (entry MessagesLimiter w)
                   (messages_request self device_id ps)
                   (backend (sent w) (clock (entry MessagesLimiter w))
                      (messages_request self device_id ps))) Hc) as (w' & E).
    rewrite messages_within_call.
    + rewrite E. eexists; reflexivity.
    + apply Hc.
    + rewrite E. apply not_rate_limit_Raise. reflexivity.
  - destruct Hc as (u & _ & Hp & Hc).
    rewrite <- sent_after_send_entry
      with (r := backend (sent w) (clock (entry MessagesLimiter w))
                   (messages_request self device_id ps)) in Hc.
    destruct (page_within_malformed rest self c u _ (S (S n)) Hc) as (w' & E);
      [simpl in Hcap; lia | simpl in Hfuel |- *; lia |].
    rewrite messages_within_call.
    + erewrite walk_response_reraise by (eassumption || reflexivity).
      eexists; reflexivity.
    + apply Hp.
    + erewrite walk_response_reraise by (eassumption || reflexivity).
      apply not_rate_limit_Raise. reflexivity.
Qed.

Lemma messages_within_overflow (final : Response -> Prop)
    (pages : list (list value)) (self : Sigfox) (device_id : string)
    (ps : option (list (string * value))) (capacity : nat) (w : World)
    (fuel : nat) :
  chain backend final (sent w) (messages_request self device_id ps) self pages ->
  (capacity <= length pages)%nat ->
  (capacity + 1 <= fuel)%nat ->
  exists w',
    device_messages_within backend capacity fuel self device_id ps w
    = (Raise RecursionError, w')
    /\ length (sent w') = (length (sent w) + capacity)%nat
    /\ length (stdout w') = (length (stdout w) + capacity)%nat.
Proof.
  intros Hc Hcap Hfuel.
  destruct capacity as [|c].
  - exists w. cbn. repeat split; lia.
  - destruct pages as [|d rest]; [simpl in Hcap; lia|].
    destruct fuel as [|[|n]]; [lia .. |].
    cbn [chain] in Hc.
    destruct (Hc (clock (entry MessagesLimiter w))) as (u & _ & Hp & Hc').
    set (w1 := after_send (entry MessagesLimiter w)
                 (messages_request self device_id ps)
                 (backend (sent w) (clock (entry MessagesLimiter w))
                    (messages_request self device_id ps))) in *.
    assert (Hs1 : sent w1 = (clock (entry MessagesLimiter w),
                             messages_request self device_id ps) :: sent w)
      by apply sent_after_send_entry.
    assert (Ho1 : stdout w1 = stdout w)
      by (subst w1; unfold after_send; cbn [stdout]; apply stdout_entry).
    rewrite <- Hs1 in Hc'.
    destruct (page_within_overflow final self c rest u w1 (S (S n)) Hc')
      as (w' & E & Hlen & Hout); [simpl in Hcap; lia | lia |].
    rewrite messages_within_call; fold w1.
    + erewrite walk_response_reraise by (eassumption || reflexivity).
      eexists. split; [reflexivity|]. cbn [sent stdout length].
      rewrite Hlen, Hout, Hs1, Ho1. cbn [length]. split; lia.
    + apply Hp.
    + erewrite walk_response_reraise by (eassumption || reflexivity).
      apply not_rate_limit_Raise. reflexivity.
Qed.

End WalkWithin.

(** ** The two embeddings agree while the recursion limit is not reached *)

Lemma walk_response_ext (rec1 rec2 : value -> M value) (r : Response) :
  (forall u w, rec1 u w = rec2 u w) ->
  forall w, walk_response rec1 r w = walk_response rec2 r w.
Proof.
  intros H w. unfold walk_response, try_except, bind, lift.
  destruct (response_json r w) as [[j| |] w1]; try reflexivity.
  destruct (getitem j "data") as [|out]; cbn; try reflexivity.
  destruct (getitem j "paging") as [|paging]; cbn; try reflexivity.
  destruct (getitem paging "next") as [|next]; cbn; try reflexivity.
  rewrite H. reflexivity.
Qed.

Lemma limits_ext {A} (L : limiter) (f g : M A) :
  (forall w, f w = g w) -> forall w, limits L f w = limits L g w.
Proof.
  intros H w. unfold limits. cbv zeta.
  destruct (clamped_calls <? _); [reflexivity | apply H].
Qed.

Lemma sleep_and_retry_ext {A} (fuel : nat) (f g : M A) :
  (forall w, f w = g w) ->
  forall w, sleep_and_retry fuel f w = sleep_and_retry fuel g w.
Proof.
  intros H. induction fuel as [|n IH]; intros w; [reflexivity|].
  cbn [sleep_and_retry]. rewrite H.
  destruct (g w) as [[a|e|] w1]; try reflexivity.
  destruct e; try reflexivity.
  unfold bind. destruct (sleep period_remaining w1) as [[[]| |] w2];
    try reflexivity.
  apply IH.
Qed.

Section Agreement.

Variable backend : list (Z * Request) -> Z -> Request -> Response.

(** With room for as many nested calls as the fuel allows, the method
    under the recursion limit is the method without it. *)
Lemma device_messages_page_within_enough (self : Sigfox) :
  forall (fuel capacity : nat) (u : value) (w : World),
    (fuel <= capacity)%nat ->
    device_messages_page_within backend capacity fuel self u w
    = device_messages_page backend fuel self u w.
Proof.
  induction fuel as [|n IH]; intros capacity u w Hle; [reflexivity|].
  destruct capacity as [|c]; [lia|].
  change (sleep_and_retry (S n)
            (limits PageLimiter
               (device_messages_page_body backend
                  (device_messages_page_within backend c n self) self u)) w
          = sleep_and_retry (S n)
              (limits PageLimiter
                 (device_messages_page_body backend
                    (device_messages_page backend n self) self u)) w).
  apply sleep_and_retry_ext. apply limits_ext. intros w0.
  rewrite !page_body_unfold. cbv zeta.
  destruct (status_code _ =? 429); [reflexivity|].
  apply walk_response_ext. intros u' w'. apply IH. lia.
Qed.

Lemma device_messages_within_enough (self : Sigfox) (device_id : string)
    (ps : option (list (string * value))) (fuel capacity : nat) (w : World) :
  (fuel < capacity)%nat ->
  device_messages_within backend capacity fuel self device_id ps w
  = device_messages backend fuel self device_id ps w.
Proof.
  intros Hlt. destruct capacity as [|c]; [lia|].
  unfold device_messages_within, device_messages.
  apply sleep_and_retry_ext. apply limits_ext. intros w0.
  rewrite !messages_body_unfold. cbv zeta.
  destruct (status_code _ =? 429); [reflexivity|].
  apply walk_response_ext. intros u' w'.
  apply device_messages_page_within_enough. lia.
Qed.

End Agreement.

(** * The claims *)

Lemma is_page_envelope (d : list value) (next : option string) :
  is_page (ok (envelope d next)) d (option_map VStr next).
Proof.
  split; [discriminate|].
  destruct next as [u|]; cbn.
  - eexists; split; [reflexivity|]. split; [reflexivity|].
    eexists; split; reflexivity.
  - eexists; split; [reflexivity|]. split; [reflexivity|].
    left; reflexivity.
Qed.

Lemma is_url_cursor : is_url (VStr cursor).
Proof.
  exists "api.sigfox.com/v2/devices/1A2B/messages?limit=10&before=1".
  right. reflexivity.
Qed.

Lemma is_url_messages_url : is_url (VStr messages_url).
Proof.
  exists "api.sigfox.com/v2/devices/1A2B/messages". right. reflexivity.
Qed.

(** The pages that [long_chain] and [long_truncated] serve with a
    cursor, from the [k]-th on. *)
Lemma long_chain_serves (n : nat) (final : Response -> Prop) :
  final (ok (envelope [message (Z.of_nat n)] None)) ->
  forall (m k : nat) (h : list (Z * Request)) (rq : Request),
    length h = k -> (k + m = n)%nat ->
    chain (long_chain n) final h rq me
      (map (fun i => [message (Z.of_nat i)]) (seq k m)).
Proof.
  intros Hfin. induction m as [|m IH]; intros k h rq Hh Hk; cbn [seq map chain].
  - intros t. unfold long_chain. rewrite Hh.
    replace (k <? n)%nat with false by (symmetry; apply Nat.ltb_ge; lia).
    replace k with n by lia. exact Hfin.
  - intros t. exists (VStr cursor). split; [exact is_url_cursor|]. split.
    + unfold long_chain. rewrite Hh.
      replace (k <? n)%nat with true by (symmetry; apply Nat.ltb_lt; lia).
      exact (is_page_envelope [message (Z.of_nat k)] (Some cursor)).
    + apply IH; [cbn; lia | lia].
Qed.

Lemma long_truncated_serves (n : nat) :
  forall (m k : nat) (h : list (Z * Request)) (rq : Request),
    length h = k -> (k + m = n)%nat ->
    chain (long_truncated n) lacks_data h rq me
      (map (fun i => [message (Z.of_nat i)]) (seq k m)).
Proof.
  induction m as [|m IH]; intros k h rq Hh Hk; cbn [seq map chain].
  - intros t. unfold long_truncated. rewrite Hh.
    replace (k <? n)%nat with false by (symmetry; apply Nat.ltb_ge; lia).
    split; [discriminate|]. eexists; split; reflexivity.
  - intros t. exists (VStr cursor). split; [exact is_url_cursor|]. split.
    + unfold long_truncated. rewrite Hh.
      replace (k <? n)%nat with true by (symmetry; apply Nat.ltb_lt; lia).
      exact (is_page_envelope [message (Z.of_nat k)] (Some cursor)).
    + apply IH; [cbn; lia | lia].
Qed.

(** C1, as the code has it.  When the backend answers the request of
    [device_messages] and the cursors that follow with a finite chain of
    pages, the last of which has no cursor, and the chain fits under the
    recursion limit of the interpreter (one nested call for each page),
    the call returns the records of all the pages, concatenated in page
    order; when the chain does not fit, the call raises
    [RecursionError].  [pages] are the pages that carry a cursor,
    [dlast] is the last one. *)
Theorem device_messages_all_pages
    (backend : list (Z * Request) -> Z -> Request -> Response)
    (self : Sigfox) (device_id : string)
    (ps : option (list (string * value)))
    (pages : list (list value)) (dlast : list value)
    (w : World) (capacity fuel : nat) :
  chain backend (fun r => is_page r dlast None) (sent w)
    (messages_request self device_id ps) self pages ->
  (length pages + 2 <= fuel)%nat ->
  ((length pages < capacity)%nat ->
   fst (device_messages_within backend capacity fuel self device_id ps w)
   = Return (VList (concat (pages ++ [dlast]))))
  /\
  ((capacity <= length pages)%nat ->
   fst (device_messages_within backend capacity fuel self device_id ps w)
   = Raise RecursionError).
Proof.
  intros Hc Hfuel. split; intros Hcap.
  - destruct (messages_within_all backend pages dlast self device_id ps
                capacity w fuel Hc Hcap Hfuel) as (w' & E & _).
    rewrite E, concat_app. cbn [concat fst]. rewrite app_nil_r. reflexivity.
  - destruct (messages_within_overflow backend _ pages self device_id ps
                capacity w fuel Hc Hcap) as (w' & E & _); [lia|].
    rewrite E. reflexivity.
Qed.

(** Ten records, then five: fifteen records in page order when two
    nested calls fit, [RecursionError] when only one does; and no record
    at all from a backend that has none. *)
Lemma device_messages_all_pages_witness :
  fst (device_messages_within two_pages 2 3 me "1A2B" None (initial_world 0))
  = Return (VList (first_page ++ second_page))
  /\ length (first_page ++ second_page) = 15%nat
  /\ fst (device_messages_within two_pages 1 3 me "1A2B" None (initial_world 0))
     = Raise RecursionError
  /\ fst (device_messages_within no_messages 1 2 me "1A2B" None
            (initial_world 0))
     = Return (VList []).
Proof.
  assert (Hc : chain two_pages (fun r => is_page r second_page None)
                 (sent (initial_world 0)) (messages_request me "1A2B" None) me
                 [first_page]).
  { intros t. exists (VStr cursor). split; [exact is_url_cursor|]. split.
    - exact (is_page_envelope first_page (Some cursor)).
    - intros t'. exact (is_page_envelope second_page None). }
  assert (Hfuel : (length [first_page] + 2 <= 3)%nat) by (simpl; lia).
  split; [|split; [reflexivity|split]].
  - apply (device_messages_all_pages two_pages me "1A2B" None
             [first_page] second_page (initial_world 0) 2 3 Hc Hfuel).
    simpl; lia.
  - apply (device_messages_all_pages two_pages me "1A2B" None
             [first_page] second_page (initial_world 0) 1 3 Hc Hfuel).
    simpl; lia.
  - apply (device_messages_all_pages no_messages me "1A2B" None
             [] [] (initial_world 0) 1 2); [|simpl; lia | simpl; lia].
    intros t. exact (is_page_envelope [] None).
Defined.

(** C1 as the claim has it fails: the backend serves a finite chain of
    401 pages, and under the default recursion limit the call raises
    [RecursionError]; it returns the 401 records only when 401 nested
    calls fit. *)
Lemma long_chain_overflows :
  chain (long_chain 400)
    (fun r => is_page r [message 400] None) (sent (initial_world 0))
    (messages_request me "1A2B" None) me
    (map (fun i => [message (Z.of_nat i)]) (seq 0 400))
  /\ fst (device_messages_within (long_chain 400) default_capacity 402 me
            "1A2B" None (initial_world 0))
     = Raise RecursionError
  /\ fst (device_messages_within (long_chain 400) 401 402 me "1A2B" None
            (initial_world 0))
     = Return (VList (map (fun i => message (Z.of_nat i)) (seq 0 401))).
Proof.
  split; [|split].
  - apply long_chain_serves;
      [exact (is_page_envelope [message 400] None) | reflexivity | reflexivity].
  - vm_compute. reflexivity.
  - vm_compute. reflexivity.
Qed.

(** C9, as the code has it.  When the chain of pages ends with an
    envelope that is a JSON object without the [data] key and the walk
    fits under the recursion limit, [device_messages] and
    [device_messages_page] return the records of the pages before it and
    raise nothing: the [KeyError] of the call for that envelope is
    swallowed by the handler of the call above.  When the walk does not
    fit, they raise [RecursionError]. *)
Theorem missing_data_truncates
    (backend : list (Z * Request) -> Z -> Request -> Response)
    (self : Sigfox) (pages : list (list value)) (w : World)
    (capacity fuel : nat) :
  pages <> [] ->
  (length pages + 2 <= fuel)%nat ->
  (forall device_id ps,
      chain backend lacks_data (sent w)
        (messages_request self device_id ps) self pages ->
      ((length pages < capacity)%nat ->
       fst (device_messages_within backend capacity fuel self device_id ps w)
       = Return (VList (concat pages)))
      /\
      ((capacity <= length pages)%nat ->
       fst (device_messages_within backend capacity fuel self device_id ps w)
       = Raise RecursionError))
  /\
  (forall u,
      is_url u ->
      chain backend lacks_data (sent w) (page_request self u) self pages ->
      ((length pages < capacity)%nat ->
       fst (device_messages_page_within backend capacity fuel self u w)
       = Return (VList (concat pages)))
      /\
      ((capacity <= length pages)%nat ->
       fst (device_messages_page_within backend capacity fuel self u w)
       = Raise RecursionError)).
Proof.
  intros Hne Hfuel. split.
  - intros device_id ps Hc. split; intros Hcap.
    + destruct (messages_within_truncated backend lacks_data pages self
                  device_id ps capacity w fuel (fun r H => H) Hne Hc Hcap Hfuel)
        as (w' & r & _ & E & _).
      rewrite E. reflexivity.
    + destruct (messages_within_overflow backend _ pages self device_id ps
                  capacity w fuel Hc Hcap) as (w' & E & _); [lia|].
      rewrite E. reflexivity.
  - intros u _ Hc. split; intros Hcap.
    + destruct (page_within_truncated backend lacks_data pages self
                  (fun r H => H) capacity u w fuel Hc Hcap Hfuel)
        as (w' & r & _ & E & _).
      rewrite E. destruct pages; [congruence | reflexivity].
    + destruct (page_within_overflow backend _ self capacity pages u w fuel
                  Hc Hcap) as (w' & E & _); [lia|].
      rewrite E. reflexivity.
Qed.

Lemma missing_data_truncates_witness :
  fst (device_messages_within truncated 2 3 me "1A2B" None (initial_world 0))
  = Return (VList first_page)
  /\ fst (device_messages_page_within truncated 2 3 me (VStr messages_url)
            (initial_world 0))
     = Return (VList first_page)
  /\ fst (device_messages_within truncated 1 3 me "1A2B" None (initial_world 0))
     = Raise RecursionError.
Proof.
  assert (Hne : [first_page] <> []) by discriminate.
  assert (Hfuel : (length [first_page] + 2 <= 3)%nat) by (simpl; lia).
  destruct (missing_data_truncates truncated me [first_page]
              (initial_world 0) 2 3 Hne Hfuel) as [H1 H2].
  destruct (missing_data_truncates truncated me [first_page]
              (initial_world 0) 1 3 Hne Hfuel) as [H3 _].
  assert (Hl : lacks_data (ok (VDict [("message", VStr "Internal Server Error")]))).
  { split; [discriminate|]. eexists; split; reflexivity. }
  split; [|split].
  - apply (H1 "1A2B" None); [|simpl; lia].
    intros t. exists (VStr cursor). split; [exact is_url_cursor|]. split.
    + exact (is_page_envelope first_page (Some cursor)).
    + intros t'. exact Hl.
  - apply (H2 (VStr messages_url) is_url_messages_url); [|simpl; lia].
    intros t. exists (VStr cursor). split; [exact is_url_cursor|]. split.
    + exact (is_page_envelope first_page (Some cursor)).
    + intros t'. exact Hl.
  - apply (H3 "1A2B" None); [|simpl; lia].
    intros t. exists (VStr cursor). split; [exact is_url_cursor|]. split.
    + exact (is_page_envelope first_page (Some cursor)).
    + intros t'. exact Hl.
Defined.

(** C9 as the claim has it fails: the backend serves 400 pages and then
    an envelope without [data]; under the default recursion limit the
    call raises [RecursionError] to the caller, where the claim has it
    return the records of the 400 pages, as it does when 401 nested
    calls fit. *)
Lemma long_truncated_overflows :
  chain (long_truncated 400) lacks_data (sent (initial_world 0))
    (messages_request me "1A2B" None) me
    (map (fun i => [message (Z.of_nat i)]) (seq 0 400))
  /\ fst (device_messages_within (long_truncated 400) default_capacity 402 me
            "1A2B" None (initial_world 0))
     = Raise RecursionError
  /\ fst (device_messages_within (long_truncated 400) 401 402 me "1A2B" None
            (initial_world 0))
     = Return (VList (map (fun i => message (Z.of_nat i)) (seq 0 400))).
Proof.
  split; [|split].
  - apply long_truncated_serves; reflexivity.
  - vm_compute. reflexivity.
  - vm_compute. reflexivity.
Qed.

(** ** Rate limiting *)

Lemma last_reset_entry_free (L : limiter) (w : World) :
  window_free L w ->
  last_reset (get_limiter L w) <= clock w ->
  last_reset (get_limiter L (entry L w)) <= clock w.
Proof.
  intros Hfree Hle. unfold entry.
  destruct (_ <=? 0) eqn:E1.
  - rewrite get_set_limiter. cbn. lia.
  - apply Z.leb_gt in E1.
    assert (E2 : (clamped_calls <? num_calls (get_limiter L w) + 1) = false).
    { apply Z.ltb_ge. unfold clamped_calls. destruct Hfree; lia. }
    rewrite E2, get_set_limiter. cbn. exact Hle.
Qed.

(** A decorated call that goes through at once and whose body raises
    [RateLimitException(_, 5)] after its request: the wrapper sleeps the
    five seconds and the body sends the request again. *)
Lemma issued_retry {A} (L : limiter) (rq : Request) (func : M A) (n : nat)
    (w : World) (m : string) (r : Response) :
  starts_with rq func ->
  window_free L w ->
  last_reset (get_limiter L w) <= clock w ->
  func (entry L w)
  = (Raise (RateLimitException m (seconds 5)), after_send (entry L w) rq r) ->
  exists later,
    sent (snd (sleep_and_retry (S (S n)) (limits L func) w))
    = (later ++ (clock w + Z.of_N (elapsed r) + seconds 5, rq)
             :: (clock w, rq) :: sent w)%list.
Proof.
  intros Hs Hfree Hle Hf.
  destruct (limits_free L func w Hfree) as [E Hc].
  change (sleep_and_retry (S (S n)) (limits L func) w)
    with (match limits L func w with
          | (Raise (RateLimitException _ p), w') =>
              (sleep p ;;; sleep_and_retry (S n) (limits L func)) w'
          | r => r
          end).
  rewrite E, Hf. unfold bind, sleep.
  change (seconds 5 <? 0) with false. cbv iota.
  set (w2 := mkWorld _ _ _ _ _).
  assert (Hl2 : get_limiter L w2 = get_limiter L (entry L w))
    by (destruct L; reflexivity).
  assert (Hc2 : clock w2 = clock w + Z.of_N (elapsed r) + seconds 5)
    by (subst w2; cbn; rewrite Hc; reflexivity).
  assert (Hs2 : sent w2 = (clock w, rq) :: sent w)
    by (subst w2; cbn; rewrite Hc, sent_entry; reflexivity).
  assert (Hfree2 : window_free L w2).
  { left. rewrite Hl2, Hc2.
    pose proof (last_reset_entry_free L w Hfree Hle).
    unfold period. lia. }
  destruct (issued_free L rq func n w2 Hs Hfree2) as (later & Hlater).
  exists later. rewrite Hlater, Hc2, Hs2. reflexivity.
Qed.

Lemma device_messages_page_never_rate
    (backend : list (Z * Request) -> Z -> Request -> Response)
    (fuel : nat) (self : Sigfox) (u : value) (w : World) :
  ~ is_rate_limit (fst (device_messages_page backend fuel self u w)).
Proof.
  destruct fuel as [|n]; [cbn; auto with rate|].
  apply sleep_and_retry_never_rate.
Qed.

(** While the backend answers 429 the decorated methods do not return:
    whatever the fuel, the loop of [sleep_and_retry] uses it up. *)
Lemma throttled_forever_never_returns {A} (L : limiter) (func : M A) (m : string) :
  (forall w, exists w', func w = (Raise (RateLimitException m (seconds 5)), w')) ->
  forall fuel w, fst (sleep_and_retry fuel (limits L func) w) = NoFuel.
Proof.
  intros Hf. induction fuel as [|n IH]; intros w; [reflexivity|].
  cbn [sleep_and_retry]. unfold limits. cbv zeta.
  destruct (clamped_calls <? _) eqn:E2.
  - unfold bind, sleep.
    destruct (_ <? 0) eqn:E3; [|apply IH].
    exfalso.
    destruct (period - (clock w - last_reset (get_limiter L w)) <=? 0) eqn:E1.
    + cbn in E2. discriminate.
    + apply Z.leb_gt in E1. apply Z.ltb_lt in E3. lia.
  - match goal with
    | |- context [func ?x] => destruct (Hf x) as (w' & ->)
    end.
    unfold bind, sleep. change (seconds 5 <? 0) with false. cbv iota.
    apply IH.
Qed.

Lemma device_messages_throttled_forever
    (backend : list (Z * Request) -> Z -> Request -> Response)
    (self : Sigfox) (device_id : string) (ps : option (list (string * value))) :
  (forall h t rq, status_code (backend h t rq) = 429) ->
  forall fuel w,
    fst (device_messages backend fuel self device_id ps w) = NoFuel.
Proof.
  intros H fuel w. unfold device_messages.
  apply throttled_forever_never_returns
    with (m := "Exceeded Sigfox API rate limit").
  intros w0. rewrite messages_body_unfold. cbv zeta. rewrite H.
  eexists. reflexivity.
Qed.

(** C2, as the code has it.  On a 429 the body of either method raises
    [RateLimitException('Exceeded Sigfox API rate limit', 5)]; the
    [sleep_and_retry] wrapper of the method catches it, sleeps the five
    seconds and sends the request again; no [RateLimitException] ever
    reaches the caller. *)
Theorem rate_limit_rejection_is_retried
    (backend : list (Z * Request) -> Z -> Request -> Response)
    (self : Sigfox) (w : World) :
  (forall rec device_id ps,
      status_code (backend (sent w) (clock w)
                     (messages_request self device_id ps)) = 429 ->
      fst (device_messages_body backend rec self device_id ps w)
      = Raise (RateLimitException "Exceeded Sigfox API rate limit" (seconds 5)))
  /\
  (forall rec u,
      status_code (backend (sent w) (clock w) (page_request self u)) = 429 ->
      fst (device_messages_page_body backend rec self u w)
      = Raise (RateLimitException "Exceeded Sigfox API rate limit" (seconds 5)))
  /\
  (forall n device_id ps,
      let rq := messages_request self device_id ps in
      let r := backend (sent w) (clock w) rq in
      window_free MessagesLimiter w ->
      last_reset (messages_limiter w) <= clock w ->
      status_code r = 429 ->
      exists later,
        sent (snd (device_messages backend (S (S n)) self device_id ps w))
        = (later ++ (clock w + Z.of_N (elapsed r) + seconds 5, rq)
                 :: (clock w, rq) :: sent w)%list)
  /\
  (forall n u,
      let rq := page_request self u in
      let r := backend (sent w) (clock w) rq in
      window_free PageLimiter w ->
      last_reset (page_limiter w) <= clock w ->
      status_code r = 429 ->
      exists later,
        sent (snd (device_messages_page backend (S (S n)) self u w))
        = (later ++ (clock w + Z.of_N (elapsed r) + seconds 5, rq)
                 :: (clock w, rq) :: sent w)%list)
  /\
  (forall fuel device_id ps,
      ~ is_rate_limit (fst (device_messages backend fuel self device_id ps w)))
  /\
  (forall fuel u,
      ~ is_rate_limit (fst (device_messages_page backend fuel self u w))).
Proof.
  repeat split.
  - intros rec device_id ps H. rewrite messages_body_unfold. cbv zeta.
    rewrite H. reflexivity.
  - intros rec u H. rewrite page_body_unfold. cbv zeta.
    rewrite H. reflexivity.
  - intros n device_id ps rq r Hfree Hle H429.
    unfold device_messages.
    destruct (limits_free MessagesLimiter (@ret unit tt) w Hfree) as [_ Hc].
    apply issued_retry with (m := "Exceeded Sigfox API rate limit") (r := r);
      auto.
    + apply messages_body_starts. apply grows_device_messages_page.
    + rewrite messages_body_unfold. cbv zeta.
      rewrite sent_entry, Hc. fold rq r. rewrite H429. reflexivity.
  - intros n u rq r Hfree Hle H429.
    change (device_messages_page backend (S (S n)) self u)
      with (sleep_and_retry (S (S n))
              (limits PageLimiter
                 (device_messages_page_body backend
                    (device_messages_page backend (S n) self) self u))).
    destruct (limits_free PageLimiter (@ret unit tt) w Hfree) as [_ Hc].
    apply issued_retry with (m := "Exceeded Sigfox API rate limit") (r := r);
      auto.
    + apply page_body_starts. apply grows_device_messages_page.
    + rewrite page_body_unfold. cbv zeta.
      rewrite sent_entry, Hc. fold rq r. rewrite H429. reflexivity.
  - intros fuel device_id ps. apply sleep_and_retry_never_rate.
  - intros fuel u. apply device_messages_page_never_rate.
Qed.

Lemma rate_limit_rejection_is_retried_witness :
  fst (device_messages_body throttled_once
         (device_messages_page throttled_once 3 me) me "1A2B" None
         (initial_world 0))
  = Raise (RateLimitException "Exceeded Sigfox API rate limit" (seconds 5))
  /\
  exists later,
    sent (snd (device_messages throttled_once 3 me "1A2B" None (initial_world 0)))
    = (later ++ [(5120, messages_request me "1A2B" None);
                 (0, messages_request me "1A2B" None)])%list.
Proof.
  destruct (rate_limit_rejection_is_retried throttled_once me (initial_world 0))
    as (H1 & _ & H3 & _).
  split.
  - apply H1. reflexivity.
  - apply (H3 1%nat "1A2B" None).
    + right. cbn. lia.
    + cbn. lia.
    + reflexivity.
Defined.

(** C2 as the claim has it fails: the backend answers the request with
    429, and the call returns the (empty) list of messages after a
    second request; it raises no [RateLimitException]. *)
Lemma rate_limit_rejection_not_surfaced :
  let w := initial_world 0 in
  let run := device_messages throttled_once 3 me "1A2B" None w in
  status_code (throttled_once (sent w) (clock w)
                 (messages_request me "1A2B" None)) = 429
  /\ fst run = Return (VList [])
  /\ fst run <> Raise (RateLimitException "Exceeded Sigfox API rate limit"
                         (seconds 5))
  /\ sent (snd run) = [(5120, messages_request me "1A2B" None);
                       (0, messages_request me "1A2B" None)].
Proof.
  cbv zeta. repeat split; try reflexivity.
  vm_compute. discriminate.
Qed.

(** C3, as the code has it.  Each of the two methods has a limiter of
    its own.  A call of a method whose limiter's window is used sleeps
    until the end of that window and sends its request then; a call of a
    method whose own window is free sends its request at once, whatever
    the state of the other method's limiter; in neither case is the
    call rejected with a [RateLimitException]. *)
Theorem rate_limit_is_per_method
    (backend : list (Z * Request) -> Z -> Request -> Response)
    (self : Sigfox) (w : World) (n : nat) :
  (forall u,
      window_used PageLimiter w ->
      issued w (snd (device_messages_page backend (S (S n)) self u w))
        (last_reset (page_limiter w) + period) (page_request self u))
  /\
  (forall device_id ps,
      window_used MessagesLimiter w ->
      issued w (snd (device_messages backend (S (S n)) self device_id ps w))
        (last_reset (messages_limiter w) + period)
        (messages_request self device_id ps))
  /\
  (forall u,
      window_free PageLimiter w ->
      issued w (snd (device_messages_page backend (S n) self u w))
        (clock w) (page_request self u))
  /\
  (forall device_id ps,
      window_free MessagesLimiter w ->
      issued w (snd (device_messages backend (S n) self device_id ps w))
        (clock w) (messages_request self device_id ps))
  /\
  (forall fuel u,
      ~ is_rate_limit (fst (device_messages_page backend fuel self u w)))
  /\
  (forall fuel device_id ps,
      ~ is_rate_limit (fst (device_messages backend fuel self device_id ps w))).
Proof.
  repeat split.
  - intros u Hused.
    apply (issued_used PageLimiter (page_request self u)
             (device_messages_page_body backend
                (device_messages_page backend (S n) self) self u) n w);
      [|exact Hused].
    apply page_body_starts, grows_device_messages_page.
  - intros device_id ps Hused.
    apply (issued_used MessagesLimiter (messages_request self device_id ps)
             (device_messages_body backend
                (device_messages_page backend (S (S n)) self)
                self device_id ps) n w);
      [|exact Hused].
    apply messages_body_starts, grows_device_messages_page.
  - intros u Hfree.
    apply (issued_free PageLimiter (page_request self u)
             (device_messages_page_body backend
                (device_messages_page backend n self) self u) n w);
      [|exact Hfree].
    apply page_body_starts, grows_device_messages_page.
  - intros device_id ps Hfree.
    apply (issued_free MessagesLimiter (messages_request self device_id ps)
             (device_messages_body backend
                (device_messages_page backend (S n) self)
                self device_id ps) n w);
      [|exact Hfree].
    apply messages_body_starts, grows_device_messages_page.
  - intros fuel u. apply device_messages_page_never_rate.
  - intros fuel device_id ps. apply sleep_and_retry_never_rate.
Qed.

Lemma rate_limit_is_per_method_witness :
  let w1 := snd (device_messages_page no_messages 2 me (VStr cursor)
                   (initial_world 0)) in
  issued w1 (snd (device_messages_page no_messages 2 me (VStr cursor) w1))
    5000 (page_request me (VStr cursor))
  /\
  issued w1 (snd (device_messages no_messages 1 me "1A2B" None w1))
    120 (messages_request me "1A2B" None).
Proof.
  cbv zeta.
  destruct (rate_limit_is_per_method no_messages me
              (snd (device_messages_page no_messages 2 me (VStr cursor)
                      (initial_world 0))) 0)
    as (H1 & _ & _ & H4 & _).
  split.
  - apply (H1 (VStr cursor)). split; cbn; lia.
  - apply (H4 "1A2B" None). right. cbn. lia.
Defined.

(** C3 as the claim has it fails: on one client, [device_messages] and
    then [device_messages_page] send their requests 120 ms apart,
    without any sleep; so do the two requests of one [device_messages]
    call that walks two pages.  Two calls of [device_messages] itself,
    four seconds after the import of the module, send their requests
    one second apart: the window of the limiter is the one that began
    at its last reset, not one that begins at the last call. *)
Lemma rate_limit_not_shared :
  let run := (device_messages no_messages 2 me "1A2B" None ;;;
              device_messages_page no_messages 2 me (VStr cursor))
               (initial_world 0) in
  sent (snd run) = [(120, page_request me (VStr cursor));
                    (0, messages_request me "1A2B" None)]
  /\ clock (snd run) = 240
  /\ 120 - 0 < period
  /\ sent (snd (device_messages two_pages 3 me "1A2B" None (initial_world 0)))
     = [(120, page_request me (VStr cursor));
        (0, messages_request me "1A2B" None)]
  /\ sent (snd ((device_messages no_messages 2 me "1A2B" None ;;;
                 device_messages no_messages 2 me "1A2B" None)
                  (mkWorld 4000 [] [] (mkLimiter 0 0) (mkLimiter 0 0))))
     = [(5000, messages_request me "1A2B" None);
        (4000, messages_request me "1A2B" None)].
Proof.
  cbv zeta. repeat split.
Qed.

(** ** The other methods *)



(** C5.  With an empty login or an empty password the constructor
    raises at once: the exception is the one of the [raise] statement
    and the world is left as it was, no request has been sent. *)
Theorem init_requires_credentials
    (login password : string) (debug : bool) (w : World) :
  login = "" \/ password = "" ->
  __init__ login password debug w
  = (Raise (Exception
       "Please define login and password when initiating pySigfox class!"),
     w).
Proof.
  intros [-> | ->]; unfold __init__.
  - reflexivity.
  - rewrite orb_true_r. reflexivity.
Qed.

Lemma init_requires_credentials_witness :
  __init__ "" "secret" false (initial_world 0)
  = (Raise (Exception
       "Please define login and password when initiating pySigfox class!"),
     initial_world 0)
  /\ __init__ "login" "" true (initial_world 0)
     = (Raise (Exception
          "Please define login and password when initiating pySigfox class!"),
        initial_world 0).
Proof.
  split.
  - apply (init_requires_credentials "" "secret" false). left. reflexivity.
  - apply (init_requires_credentials "login" "" true). right. reflexivity.
Defined.

(** C6.  For a device with an [id] and a [pac] and a device type with a
    string [id] (and, for a verbose client, with the strings that the
    message printed needs), [device_create] sends one POST whose JSON
    body has the prefix [api_added-], the one pair [id]/[pac] of the
    device and the certificate; the device type only appears in the
    URL. *)
Theorem device_create_body
    (backend : list (Z * Request) -> Z -> Request -> Response)
    (self : Sigfox) (device : value) (cert : string) (devicetype : value)
    (w : World) (i p : value) (t : string) :
  getitem device "id" = inr i ->
  getitem device "pac" = inr p ->
  getitem devicetype "id" = inr (VStr t) ->
  (debug self = true ->
   exists si nm, i = VStr si /\ getitem devicetype "name" = inr (VStr nm)) ->
  sent (snd (device_create backend self device cert devicetype w))
  = (clock w,
     mkRequest POST
       (VStr (((api_url self ++ "devicetypes/") ++ t)
              ++ "/devices/bulk/create/async"))
       (basic_auth self) None
       (JsonPayload
          (VDict [("prefix", VStr "api_added-");
                  ("ids", VList [VDict [("id", i); ("pac", p)]]);
                  ("productCertificate", VStr cert)])))
    :: sent w.
Proof.
  intros Hi Hp Ht Hdbg.
  unfold device_create, bind, when, requests_post, send, response_json.
  destruct (debug self).
  - destruct (Hdbg eq_refl) as (si & nm & -> & Hn).
    rewrite Hi, Hp, Ht, Hn. cbn.
    destruct (json _); reflexivity.
  - rewrite Hi, Hp, Ht. cbn.
    destruct (json _); reflexivity.
Qed.

Lemma device_create_body_witness :
  let device := VDict [("id", VStr "1A2B"); ("pac", VStr "0123456789ABCDEF")] in
  let expected :=
    JsonPayload
      (VDict [("prefix", VStr "api_added-");
              ("ids", VList [VDict [("id", VStr "1A2B");
                                    ("pac", VStr "0123456789ABCDEF")]]);
              ("productCertificate", VStr "P_0001_AAAA_01")]) in
  map (fun x => body (snd x))
    (sent (snd (device_create plain_info me_debug device "P_0001_AAAA_01"
                  (VDict [("id", VStr "5d3f"); ("name", VStr "trackers")])
                  (initial_world 0))))
  = [expected]
  /\
  map (fun x => body (snd x))
    (sent (snd (device_create plain_info me device "P_0001_AAAA_01"
                  (VDict [("id", VStr "77aa")])
                  (initial_world 0))))
  = [expected].
Proof.
  cbv zeta. split.
  - rewrite (device_create_body plain_info me_debug _ "P_0001_AAAA_01" _
               (initial_world 0) (VStr "1A2B") (VStr "0123456789ABCDEF") "5d3f");
      try reflexivity.
    intros _. exists "1A2B", "trackers". split; reflexivity.
  - rewrite (device_create_body plain_info me _ "P_0001_AAAA_01" _
               (initial_world 0) (VStr "1A2B") (VStr "0123456789ABCDEF") "77aa");
      try reflexivity.
    discriminate.
Defined.

(** C7, as the code has it.  [device_info] returns the whole parsed
    body of the response, not a [data] field of it: when the body is
    JSON, the value returned is that JSON value. *)
Theorem device_info_returns_body
    (backend : list (Z * Request) -> Z -> Request -> Response)
    (self : Sigfox) (device_id : string) (w : World) (v : value) :
  json (backend (sent w) (clock w) (info_request self device_id)) = Some v ->
  fst (device_info backend self device_id w) = Return v.
Proof.
  intros Hj.
  unfold device_info, bind, when, requests_get, send, try_except,
    response_json.
  fold (info_request self device_id).
  destruct (debug self); cbn; rewrite Hj; reflexivity.
Qed.

Lemma device_info_returns_body_witness :
  fst (device_info plain_info me "1A2B" (initial_world 0))
  = Return (VDict [("id", VStr "1A2B"); ("name", VStr "tracker")]).
Proof.
  apply (device_info_returns_body plain_info me "1A2B" (initial_world 0)).
  reflexivity.
Defined.

(** C7 as the claim has it fails: when the body is an envelope with a
    [data] field, [device_info] returns the envelope, which has no
    [id], and not the record in [data]; and when the body is the record
    of the device, what is returned is that body, which has no [data]
    field. *)
Lemma device_info_not_data_field :
  let envelope := VDict [("data", VDict [("id", VStr "1A2B")])] in
  let record := VDict [("id", VStr "1A2B"); ("name", VStr "tracker")] in
  json (enveloped_info [] 0 (info_request me "1A2B")) = Some envelope
  /\ getitem envelope "data" = inr (VDict [("id", VStr "1A2B")])
  /\ fst (device_info enveloped_info me "1A2B" (initial_world 0))
     = Return envelope
  /\ fst (device_info enveloped_info me "1A2B" (initial_world 0))
     <> Return (VDict [("id", VStr "1A2B")])
  /\ getitem envelope "id" = inl (KeyError "id")
  /\ fst (device_info plain_info me "1A2B" (initial_world 0)) = Return record
  /\ getitem record "data" = inl (KeyError "data").
Proof.
  cbv zeta. repeat split. vm_compute. discriminate.
Qed.

(** C8, on the code.  Whatever descriptor [new] is passed,
    [device_types_create] posts the dictionary written in the source,
    form-encoded, and returns the response object, not its parsed
    body. *)
Theorem device_types_create_ignores_descriptor
    (backend : list (Z * Request) -> Z -> Request -> Response)
    (self : Sigfox) (new : value) (w : World) :
  let rq := mkRequest POST (VStr (api_url self ++ "devicetypes/create"))
              (basic_auth self) None
              (DataPayload [("name", VStr "test1");
                            ("contractId", VStr "moire_la_30f0_30f1")]) in
  fst (device_types_create backend self new w)
  = Return (backend (sent w) (clock w) rq)
  /\ sent (snd (device_types_create backend self new w))
     = (clock w, rq) :: sent w.
Proof.
  unfold device_types_create, bind, when, requests_post, send.
  destruct (debug self); split; reflexivity.
Qed.

(** C10.  Whatever the backend answers, [device_rename] sends its PUT
    and returns [None]; it raises nothing, and neither the status nor
    the body of the response has any part in the outcome. *)
Theorem device_rename_returns_none
    (backend : list (Z * Request) -> Z -> Request -> Response)
    (self : Sigfox) (device_id : string) (new_name : value) (w : World) :
  fst (device_rename backend self device_id new_name w) = Return VNone
  /\ sent (snd (device_rename backend self device_id new_name w))
     = (clock w,
        mkRequest PUT (VStr (api_url self ++ "devices/" ++ device_id))
          (basic_auth self) None (JsonPayload (VDict [("name", new_name)])))
       :: sent w.
Proof.
  unfold device_rename, bind, when, requests_put, send.
  destruct (debug self); split; reflexivity.
Qed.

(** * Further properties of the code *)

(** ** Relations that every step keeps *)

Section Invariant.

Variable R : World -> World -> Prop.
Hypothesis R_refl : forall w, R w w.
Hypothesis R_trans : forall w1 w2 w3, R w1 w2 -> R w2 w3 -> R w1 w3.
Hypothesis R_stdout : forall w o,
  R w (mkWorld (clock w) (sent w) (o :: stdout w)
               (page_limiter w) (messages_limiter w)).
Hypothesis R_limiter : forall L s w, R w (set_limiter L s w).
Hypothesis R_sleep : forall w d,
  0 <= d ->
  R w (mkWorld (clock w + d) (sent w) (stdout w)
               (page_limiter w) (messages_limiter w)).

Lemma preserves_ret {A} (a : A) : preserves R (ret a).
Proof. intros w; apply R_refl. Qed.

Lemma preserves_raise {A} (e : exn) : preserves R (@raise A e).
Proof. intros w; apply R_refl. Qed.

Lemma preserves_out_of_fuel {A} : preserves R (@out_of_fuel A).
Proof. intros w; apply R_refl. Qed.

Lemma preserves_lift {A} (r : exn + A) : preserves R (lift r).
Proof. destruct r; [apply preserves_raise | apply preserves_ret]. Qed.

Lemma preserves_pprint (v : value) : preserves R (pprint v).
Proof. intros w; apply R_stdout. Qed.

Lemma preserves_sleep (d : Z) : preserves R (sleep d).
Proof.
  intros w. unfold sleep. destruct (d <? 0) eqn:E; cbn [snd].
  - apply R_refl.
  - apply R_sleep. apply Z.ltb_ge in E. exact E.
Qed.

Lemma preserves_bind {A B} (m : M A) (f : A -> M B) :
  preserves R m -> (forall a, preserves R (f a)) -> preserves R (bind m f).
Proof.
  intros Hm Hf w. unfold bind. pose proof (Hm w) as H.
  destruct (m w) as [[a|e|] w1]; cbn [snd] in *; auto.
  eapply R_trans; [exact H | apply Hf].
Qed.

Lemma preserves_try_except {A} (m : M A) (handles : exn -> bool)
    (h : exn -> M A) :
  preserves R m -> (forall e, preserves R (h e)) ->
  preserves R (try_except m handles h).
Proof.
  intros Hm Hh w. unfold try_except. pose proof (Hm w) as H.
  destruct (m w) as [[a|e|] w1]; cbn [snd] in *; auto.
  destruct (handles e); cbn [snd]; auto.
  eapply R_trans; [exact H | apply Hh].
Qed.

Lemma preserves_limits {A} (L : limiter) (func : M A) :
  preserves R func -> preserves R (limits L func).
Proof.
  intros Hf w. unfold limits. cbv zeta.
  destruct (clamped_calls <? _); cbn [snd].
  - apply R_limiter.
  - eapply R_trans; [apply R_limiter | apply Hf].
Qed.

Lemma preserves_sleep_and_retry {A} (fuel : nat) (func : M A) :
  preserves R func -> preserves R (sleep_and_retry fuel func).
Proof.
  intros Hf. induction fuel as [|n IH]; [apply preserves_out_of_fuel|].
  intros w. cbn [sleep_and_retry]. pose proof (Hf w) as H.
  destruct (func w) as [[a|e|] w1]; cbn [snd] in *; auto.
  destruct e; auto.
  eapply R_trans; [exact H|].
  apply (preserves_bind (sleep period_remaining)
           (fun _ => sleep_and_retry n func) (preserves_sleep _) (fun _ => IH)).
Qed.

Variable backend : list (Z * Request) -> Z -> Request -> Response.
Variable self : Sigfox.
Hypothesis R_send : forall w rq,
  method rq = GET -> auth rq = basic_auth self ->
  R w (after_send w rq (backend (sent w) (clock w) rq)).

Lemma preserves_walk_response (rec : value -> M value) (r : Response) :
  (forall u, preserves R (rec u)) -> preserves R (walk_response rec r).
Proof.
  intros Hrec. unfold walk_response.
  apply preserves_try_except.
  - apply preserves_bind.
    { unfold response_json. destruct (json r);
        [apply preserves_ret | apply preserves_raise]. }
    intros j. apply preserves_bind; [apply preserves_lift|]. intros out.
    apply preserves_try_except; [|intros; apply preserves_ret].
    apply preserves_bind; [apply preserves_lift|]; intros paging.
    apply preserves_bind; [apply preserves_lift|]; intros next.
    apply preserves_bind; [apply Hrec|]. intros more. apply preserves_lift.
  - intros e. apply preserves_bind; [apply preserves_pprint|].
    intros; apply preserves_raise.
Qed.

Lemma preserves_page_body (rec : value -> M value) (u : value) :
  (forall u', preserves R (rec u')) ->
  preserves R (device_messages_page_body backend rec self u).
Proof.
  intros Hrec w. rewrite page_body_unfold. cbv zeta.
  assert (Hs : R w (after_send w (page_request self u)
                      (backend (sent w) (clock w) (page_request self u))))
    by (apply R_send; reflexivity).
  destruct (status_code _ =? 429); cbn [snd]; [exact Hs|].
  eapply R_trans; [exact Hs | apply preserves_walk_response, Hrec].
Qed.

Lemma preserves_messages_body (rec : value -> M value) (device_id : string)
    (ps : option (list (string * value))) :
  (forall u', preserves R (rec u')) ->
  preserves R (device_messages_body backend rec self device_id ps).
Proof.
  intros Hrec w. rewrite messages_body_unfold. cbv zeta.
  assert (Hs : R w (after_send w (messages_request self device_id ps)
                      (backend (sent w) (clock w)
                         (messages_request self device_id ps))))
    by (apply R_send; reflexivity).
  destruct (status_code _ =? 429); cbn [snd]; [exact Hs|].
  eapply R_trans; [exact Hs | apply preserves_walk_response, Hrec].
Qed.

Lemma preserves_device_messages_page (fuel : nat) :
  forall u, preserves R (device_messages_page backend fuel self u).
Proof.
  induction fuel as [|n IH]; intros u; [apply preserves_out_of_fuel|].
  change (device_messages_page backend (S n) self u)
    with (sleep_and_retry (S n)
            (limits PageLimiter
               (device_messages_page_body backend
                  (device_messages_page backend n self) self u))).
  apply preserves_sleep_and_retry, preserves_limits, preserves_page_body, IH.
Qed.

Lemma preserves_device_messages (fuel : nat) (device_id : string)
    (ps : option (list (string * value))) :
  preserves R (device_messages backend fuel self device_id ps).
Proof.
  unfold device_messages.
  apply preserves_sleep_and_retry, preserves_limits, preserves_messages_body.
  apply preserves_device_messages_page.
Qed.

End Invariant.

(** X2.  Whatever the backend answers, every request that
    [device_messages] or [device_messages_page] sends, on any page and
    on any retry, is a GET that carries the login and password of the
    client; the log of earlier requests is kept. *)
Theorem message_retrieval_only_gets
    (backend : list (Z * Request) -> Z -> Request -> Response)
    (fuel : nat) (self : Sigfox) (device_id : string)
    (ps : option (list (string * value))) (u : value) (w : World) :
  only_gets self w (snd (device_messages backend fuel self device_id ps w))
  /\ only_gets self w (snd (device_messages_page backend fuel self u w)).
Proof.
  assert (H1 : forall w0, only_gets self w0 w0)
    by (intros; exists []; split; [reflexivity | constructor]).
  assert (H2 : forall w1 w2 w3,
             only_gets self w1 w2 -> only_gets self w2 w3 -> only_gets self w1 w3).
  { intros w1 w2 w3 (l1 & E1 & F1) (l2 & E2 & F2).
    exists (l2 ++ l1)%list. split.
    - rewrite E2, E1. apply app_assoc.
    - apply Forall_app; split; assumption. }
  assert (H3 : forall w0 o,
             only_gets self w0 (mkWorld (clock w0) (sent w0) (o :: stdout w0)
                                  (page_limiter w0) (messages_limiter w0)))
    by (intros; exists []; split; [reflexivity | constructor]).
  assert (H4 : forall L s w0, only_gets self w0 (set_limiter L s w0))
    by (intros; exists []; split; [apply sent_set_limiter | constructor]).
  assert (H5 : forall w0 d, 0 <= d ->
             only_gets self w0 (mkWorld (clock w0 + d) (sent w0) (stdout w0)
                                  (page_limiter w0) (messages_limiter w0)))
    by (intros; exists []; split; [reflexivity | constructor]).
  assert (H6 : forall w0 rq, method rq = GET -> auth rq = basic_auth self ->
             only_gets self w0
               (after_send w0 rq (backend (sent w0) (clock w0) rq))).
  { intros w0 rq Hm Ha. exists [(clock w0, rq)]. split; [reflexivity|].
    constructor; [split; assumption | constructor]. }
  split.
  - exact (preserves_device_messages (only_gets self) H1 H2 H3 H4 H5 backend
             self H6 fuel device_id ps w).
  - exact (preserves_device_messages_page (only_gets self) H1 H2 H3 H4 H5
             backend self H6 fuel u w).
Qed.

(** X3.  While the backend answers every request with 429, neither
    [device_messages] nor [device_messages_page] returns or raises:
    whatever fuel the retry loop is given, it is used up. *)
Theorem throttled_forever_no_return
    (backend : list (Z * Request) -> Z -> Request -> Response)
    (self : Sigfox) (device_id : string)
    (ps : option (list (string * value))) (u : value) :
  (forall h t rq, status_code (backend h t rq) = 429) ->
  forall fuel w,
    fst (device_messages backend fuel self device_id ps w) = NoFuel
    /\ fst (device_messages_page backend fuel self u w) = NoFuel.
Proof.
  intros H fuel w. split.
  - unfold device_messages.
    apply throttled_forever_never_returns
      with (m := "Exceeded Sigfox API rate limit").
    intros w0. rewrite messages_body_unfold. cbv zeta. rewrite H.
    eexists. reflexivity.
  - destruct fuel as [|n]; [reflexivity|].
    change (device_messages_page backend (S n) self u)
      with (sleep_and_retry (S n)
              (limits PageLimiter
                 (device_messages_page_body backend
                    (device_messages_page backend n self) self u))).
    apply throttled_forever_never_returns
      with (m := "Exceeded Sigfox API rate limit").
    intros w0. rewrite page_body_unfold. cbv zeta. rewrite H.
    eexists. reflexivity.
Qed.

Lemma throttled_forever_no_return_witness :
  fst (device_messages always_throttled 50 me "1A2B" None (initial_world 0))
  = NoFuel
  /\ fst (device_messages_page always_throttled 50 me (VStr cursor)
            (initial_world 0))
     = NoFuel.
Proof.
  apply (throttled_forever_no_return always_throttled me "1A2B" None
           (VStr cursor)).
  intros h t rq. reflexivity.
Defined.

(** ** More on the pagination *)

(** X4.  Started from a cursor, [device_messages_page] walks the chain
    of pages that the backend serves from there and, when the chain
    fits under the recursion limit, returns their records, concatenated
    in page order; it sends exactly one request per page. *)
Theorem device_messages_page_all_pages
    (backend : list (Z * Request) -> Z -> Request -> Response)
    (self : Sigfox) (u : value)
    (pages : list (list value)) (dlast : list value)
    (w : World) (capacity fuel : nat) :
  is_url u ->
  chain backend (fun r => is_page r dlast None) (sent w)
    (page_request self u) self pages ->
  (length pages < capacity)%nat ->
  (length pages + 2 <= fuel)%nat ->
  fst (device_messages_page_within backend capacity fuel self u w)
  = Return (VList (concat (pages ++ [dlast])))
  /\ length (sent (snd (device_messages_page_within backend capacity fuel
                          self u w)))
     = (length (sent w) + length (pages ++ [dlast]))%nat.
Proof.
  intros _ Hc Hcap Hfuel.
  destruct (page_within_all backend pages dlast self capacity u w fuel
              Hc Hcap Hfuel) as (w' & E & Hlen & _).
  rewrite E. cbn [fst snd]. split.
  - rewrite concat_app. cbn [concat]. rewrite app_nil_r. reflexivity.
  - rewrite Hlen, length_app. cbn. lia.
Qed.

Lemma device_messages_page_all_pages_witness :
  fst (device_messages_page_within two_pages 2 3 me (VStr messages_url)
         (initial_world 0))
  = Return (VList (first_page ++ second_page))
  /\ length (sent (snd (device_messages_page_within two_pages 2 3 me
                          (VStr messages_url) (initial_world 0))))
     = 2%nat.
Proof.
  apply (device_messages_page_all_pages two_pages me (VStr messages_url)
           [first_page] second_page (initial_world 0) 2 3);
    [exact is_url_messages_url | | simpl; lia | simpl; lia].
  intros t. exists (VStr cursor). split; [exact is_url_cursor|]. split.
  - exact (is_page_envelope first_page (Some cursor)).
  - intros t'. exact (is_page_envelope second_page None).
Defined.

(** X5.  Over a chain of pages that fits under the recursion limit
    [device_messages] sends exactly one request per page: its own for
    the first page and one per cursor. *)
Theorem device_messages_one_request_per_page
    (backend : list (Z * Request) -> Z -> Request -> Response)
    (self : Sigfox) (device_id : string)
    (ps : option (list (string * value)))
    (pages : list (list value)) (dlast : list value)
    (w : World) (capacity fuel : nat) :
  chain backend (fun r => is_page r dlast None) (sent w)
    (messages_request self device_id ps) self pages ->
  (length pages < capacity)%nat ->
  (length pages + 2 <= fuel)%nat ->
  length (sent (snd (device_messages_within backend capacity fuel self
                       device_id ps w)))
  = (length (sent w) + length (pages ++ [dlast]))%nat.
Proof.
  intros Hc Hcap Hfuel.
  destruct (messages_within_all backend pages dlast self device_id ps
              capacity w fuel Hc Hcap Hfuel) as (w' & E & Hlen & _).
  rewrite E. cbn [snd]. rewrite Hlen, length_app. cbn. lia.
Qed.

Lemma device_messages_one_request_per_page_witness :
  length (sent (snd (device_messages_within two_pages 2 3 me "1A2B" None
                       (initial_world 0))))
  = 2%nat.
Proof.
  apply (device_messages_one_request_per_page two_pages me "1A2B" None
           [first_page] second_page (initial_world 0) 2 3);
    [| simpl; lia | simpl; lia].
  intros t. exists (VStr cursor). split; [exact is_url_cursor|]. split.
  - exact (is_page_envelope first_page (Some cursor)).
  - intros t'. exact (is_page_envelope second_page None).
Defined.

(** X6.  When the first response itself is an envelope without [data],
    nothing swallows the [KeyError]: both methods raise
    [KeyError('data')] to the caller. *)
Theorem first_page_without_data_raises
    (backend : list (Z * Request) -> Z -> Request -> Response)
    (self : Sigfox) (w : World) (fuel : nat) :
  (2 <= fuel)%nat ->
  (forall device_id ps,
      (forall t, lacks_data (backend (sent w) t
                               (messages_request self device_id ps))) ->
      fst (device_messages backend fuel self device_id ps w)
      = Raise (KeyError "data"))
  /\
  (forall u,
      (forall t, lacks_data (backend (sent w) t (page_request self u))) ->
      fst (device_messages_page backend fuel self u w)
      = Raise (KeyError "data")).
Proof.
  intros Hfuel. destruct fuel as [|[|n]]; [lia .. |]. split.
  - intros device_id ps Hl.
    specialize (Hl (clock (entry MessagesLimiter w))).
    destruct (walk_response_lacks
                (device_messages_page backend (S (S n)) self) _
                (after_send (entry MessagesLimiter w)
                   (messages_request self device_id ps)
                   (backend (sent w) (clock (entry MessagesLimiter w))
                      (messages_request self device_id ps))) Hl) as (w' & E).
    rewrite messages_call.
    + rewrite E. reflexivity.
    + apply Hl.
    + rewrite E. apply not_rate_limit_Raise. reflexivity.
  - intros u Hl.
    specialize (Hl (clock (entry PageLimiter w))).
    destruct (walk_response_lacks
                (device_messages_page backend (S n) self) _
                (after_send (entry PageLimiter w) (page_request self u)
                   (backend (sent w) (clock (entry PageLimiter w))
                      (page_request self u))) Hl) as (w' & E).
    rewrite page_call.
    + rewrite E. reflexivity.
    + apply Hl.
    + rewrite E. apply not_rate_limit_Raise. reflexivity.
Qed.

Lemma first_page_without_data_raises_witness :
  fst (device_messages no_data 2 me "1A2B" None (initial_world 0))
  = Raise (KeyError "data")
  /\ fst (device_messages_page no_data 2 me (VStr cursor) (initial_world 0))
     = Raise (KeyError "data").
Proof.
  assert (Hfuel : (2 <= 2)%nat) by lia.
  destruct (first_page_without_data_raises no_data me (initial_world 0) 2
              Hfuel) as [H1 H2].
  assert (Hl : lacks_data (ok (VDict [("message", VStr "Internal Server Error")]))).
  { split; [discriminate|]. eexists; split; reflexivity. }
  split.
  - apply (H1 "1A2B" None). intros t. exact Hl.
  - apply (H2 (VStr cursor)). intros t. exact Hl.
Defined.

(** X7.  A response whose JSON body is not an object, or whose [paging]
    is present but not an object (for instance [null]), does not end the
    walk as a missing cursor does: the call raises [TypeError], also
    when that response comes after pages that were read, whose records
    are then not returned.  (The walk is one that fits under the
    recursion limit.) *)
Theorem malformed_page_raises_type_error
    (backend : list (Z * Request) -> Z -> Request -> Response)
    (self : Sigfox) (pages : list (list value)) (w : World)
    (capacity fuel : nat) :
  (length pages < capacity)%nat ->
  (length pages + 2 <= fuel)%nat ->
  (forall device_id ps,
      chain backend malformed (sent w)
        (messages_request self device_id ps) self pages ->
      fst (device_messages_within backend capacity fuel self device_id ps w)
      = Raise TypeError)
  /\
  (forall u,
      is_url u ->
      chain backend malformed (sent w) (page_request self u) self pages ->
      fst (device_messages_page_within backend capacity fuel self u w)
      = Raise TypeError).
Proof.
  intros Hcap Hfuel. split.
  - intros device_id ps Hc.
    destruct (messages_within_malformed backend pages self device_id ps
                capacity w fuel Hc Hcap Hfuel) as (w' & E).
    rewrite E. reflexivity.
  - intros u _ Hc.
    destruct (page_within_malformed backend pages self capacity u w fuel
                Hc Hcap Hfuel) as (w' & E).
    rewrite E. reflexivity.
Qed.

Lemma malformed_page_raises_type_error_witness :
  fst (device_messages_within null_paging 2 3 me "1A2B" None (initial_world 0))
  = Raise TypeError
  /\ fst (device_messages_page_within null_paging 2 3 me (VStr messages_url)
            (initial_world 0))
     = Raise TypeError.
Proof.
  assert (Hcap : (length [first_page] < 2)%nat) by (simpl; lia).
  assert (Hfuel : (length [first_page] + 2 <= 3)%nat) by (simpl; lia).
  destruct (malformed_page_raises_type_error null_paging me [first_page]
              (initial_world 0) 2 3 Hcap Hfuel) as [H1 H2].
  assert (Hm : malformed
                 (ok (VDict [("data", VList second_page); ("paging", VNone)]))).
  { split; [discriminate|]. eexists; split; [reflexivity|]. right.
    exists [("data", VList second_page); ("paging", VNone)],
           (VList second_page), VNone.
    repeat split. }
  split.
  - apply (H1 "1A2B" None). intros t. exists (VStr cursor).
    split; [exact is_url_cursor|]. split.
    + exact (is_page_envelope first_page (Some cursor)).
    + intros t'. exact Hm.
  - apply (H2 (VStr messages_url) is_url_messages_url).
    intros t. exists (VStr cursor). split; [exact is_url_cursor|]. split.
    + exact (is_page_envelope first_page (Some cursor)).
    + intros t'. exact Hm.
Defined.

(** ** More on the rate limiting *)

Lemma entry_over (L : limiter) (w : World) :
  last_reset (get_limiter L w) + period <= clock w ->
  entry L w = set_limiter L (mkLimiter (clock w) 1) w.
Proof.
  intros H. unfold entry.
  assert (E : (period - (clock w - last_reset (get_limiter L w)) <=? 0) = true)
    by (apply Z.leb_le; lia).
  rewrite E. reflexivity.
Qed.

(** On a page with a cursor, what the walk has sent is what the fetch
    of the next page has sent. *)
Lemma walk_response_sent_next (rec : value -> M value) (r : Response)
    (d : list value) (u : value) (w : World) :
  is_page r d (Some u) ->
  sent (snd (walk_response rec r w)) = sent (snd (rec u w)).
Proof.
  intros (_ & env & Hj & Hd & pg & Hp & Hn).
  unfold walk_response, try_except, bind, response_json, lift, getitem.
  rewrite Hj. cbn. rewrite Hd. cbn. rewrite Hp. cbn. rewrite Hn. cbn.
  destruct (rec u w) as [[more|e|] w2]; cbn.
  - destruct (iter more) as [e|l']; cbn; [destruct (is_KeyError e)|];
      reflexivity.
  - destruct (is_KeyError e); reflexivity.
  - reflexivity.
Qed.

(** X8.  When [device_messages_page] is called after its window is
    over, it sends its request at once, and the request for the next
    page, which goes through the same limiter, is sent five seconds
    after the first, or as soon as the first answer has arrived if that
    took longer. *)
Theorem second_page_waits_for_window
    (backend : list (Z * Request) -> Z -> Request -> Response)
    (self : Sigfox) (u : value) (w : World) (n : nat)
    (d : list value) (u2 : value) :
  let rq := page_request self u in
  let r := backend (sent w) (clock w) rq in
  last_reset (page_limiter w) + period <= clock w ->
  is_page r d (Some u2) ->
  exists later,
    sent (snd (device_messages_page backend (S (S (S n))) self u w))
    = (later
       ++ (Z.max (clock w + period) (clock w + Z.of_N (elapsed r)),
           page_request self u2)
       :: (clock w, rq) :: sent w)%list.
Proof.
  intros rq r Hover Hp.
  set (rec := device_messages_page backend (S (S n)) self).
  set (F := limits PageLimiter (device_messages_page_body backend rec self u)).
  change (device_messages_page backend (S (S (S n))) self u w)
    with (sleep_and_retry (S (S (S n))) F w).
  assert (Hrec : forall u', grows (rec u'))
    by (intros; apply grows_device_messages_page).
  assert (HF : grows F).
  { apply grows_limits. eapply starts_with_grows.
    apply page_body_starts, Hrec. }
  destruct (sleep_and_retry_extends (S (S n)) F w HF) as (l & Hl).
  assert (Hfree : window_free PageLimiter w) by (left; exact Hover).
  destruct (limits_free PageLimiter
              (device_messages_page_body backend rec self u) w Hfree)
    as [E Hc].
  fold F in E. rewrite E in Hl.
  rewrite page_body_unfold in Hl. cbv zeta in Hl.
  rewrite sent_entry, Hc in Hl. fold rq r in Hl.
  assert (Hs : (status_code r =? 429) = false)
    by (apply Z.eqb_neq; apply Hp).
  rewrite Hs in Hl.
  rewrite (walk_response_sent_next rec r d u2 _ Hp) in Hl.
  set (w1 := after_send (entry PageLimiter w) rq r) in *.
  assert (Hs1 : sent w1 = (clock w, rq) :: sent w).
  { subst w1. rewrite sent_after_send_entry, Hc. reflexivity. }
  assert (Hc1 : clock w1 = clock w + Z.of_N (elapsed r)).
  { subst w1. unfold after_send. cbn [clock]. rewrite Hc. reflexivity. }
  assert (Hl1 : get_limiter PageLimiter w1 = mkLimiter (clock w) 1).
  { subst w1. rewrite (entry_over PageLimiter w Hover). reflexivity. }
  assert (Hb : starts_with (page_request self u2)
                 (device_messages_page_body backend
                    (device_messages_page backend (S n) self) self u2))
    by (apply page_body_starts; intros; apply grows_device_messages_page).
  change (rec u2 w1)
    with (sleep_and_retry (S (S n))
            (limits PageLimiter
               (device_messages_page_body backend
                  (device_messages_page backend (S n) self) self u2)) w1) in Hl.
  destruct (Z.lt_ge_cases (Z.of_N (elapsed r)) period) as [Hlt | Hge].
  - assert (Hused : window_used PageLimiter w1).
    { split; rewrite Hl1; cbn [last_reset num_calls]; lia. }
    destruct (issued_used PageLimiter (page_request self u2) _ n w1 Hb Hused)
      as (l' & Hl').
    rewrite Hl', Hl1, Hs1 in Hl. cbn [last_reset] in Hl.
    exists (l ++ l')%list. rewrite Hl, <- app_assoc.
    rewrite Z.max_l by lia. reflexivity.
  - assert (Hfree1 : window_free PageLimiter w1).
    { left. rewrite Hl1. cbn [last_reset]. lia. }
    destruct (issued_free PageLimiter (page_request self u2) _ (S n) w1 Hb
                Hfree1) as (l' & Hl').
    rewrite Hl', Hc1, Hs1 in Hl.
    exists (l ++ l')%list. rewrite Hl, <- app_assoc.
    rewrite Z.max_r by lia. reflexivity.
Qed.

Lemma second_page_waits_for_window_witness :
  exists later,
    sent (snd (device_messages_page two_pages 3 me (VStr messages_url)
                 (mkWorld 9000 [] [] (mkLimiter 0 1) (mkLimiter 0 0))))
    = (later ++ [(14000, page_request me (VStr cursor));
                 (9000, page_request me (VStr messages_url))])%list.
Proof.
  apply (second_page_waits_for_window two_pages me (VStr messages_url)
           (mkWorld 9000 [] [] (mkLimiter 0 1) (mkLimiter 0 0)) 0
           first_page (VStr cursor)).
  - cbn. lia.
  - exact (is_page_envelope first_page (Some cursor)).
Defined.

(** ** The list methods *)

Lemma append_all_app (groups out : list value) :
  append_all out groups = (out ++ groups)%list.
Proof.
  revert out. induction groups as [|g gs IH]; intros out; cbn.
  - symmetry. apply app_nil_r.
  - rewrite IH, <- app_assoc. reflexivity.
Qed.

(** X9.  When the body of the response is a JSON object,
    [device_types_list], [groups_list] and [device_list] return its
    [data] list as it is, in the order of the backend, and raise
    [KeyError('data')] when the object has no [data]. *)
Theorem list_methods_return_data
    (backend : list (Z * Request) -> Z -> Request -> Response)
    (self : Sigfox) (w : World) (r : Response)
    (env : list (string * value)) :
  json r = Some (VDict env) ->
  let result := match lookup "data" env with
                | Some v => Return v
                | None => Raise (KeyError "data")
                end in
  (lookup "data" env = None \/ exists d, lookup "data" env = Some (VList d)) ->
  (backend (sent w) (clock w) (types_request self) = r ->
   fst (device_types_list backend self w) = result)
  /\
  (backend (sent w) (clock w) (groups_request self) = r ->
   fst (groups_list backend self w) = result)
  /\
  (forall device_type t,
      getitem device_type "id" = inr t ->
      backend (sent w) (clock w) (list_request self t) = r ->
      fst (device_list backend self device_type w) = result).
Proof.
  intros Hj result Hd. subst result. repeat split.
  - intros Hr.
    unfold device_types_list, bind, requests_get, send, response_json, lift,
      getitem.
    fold (types_request self). cbn. rewrite Hr, Hj. cbn.
    destruct (lookup "data" env); reflexivity.
  - intros Hr.
    unfold groups_list, bind, when, requests_get, send, response_json, lift,
      getitem.
    fold (groups_request self).
    destruct Hd as [Hd | (d & Hd)];
      destruct (debug self); cbn; rewrite Hr, Hj; cbn; rewrite Hd; cbn;
      rewrite ?append_all_app; reflexivity.
  - intros device_type t Ht Hr.
    unfold device_list, bind, requests_get, send, try_except, response_json,
      lift.
    rewrite Ht. cbn. fold (list_request self t). rewrite Hr, Hj.
    unfold getitem. cbn.
    destruct Hd as [Hd | (d & Hd)]; rewrite Hd; reflexivity.
Qed.

Lemma list_methods_return_data_witness :
  let d := [message 1; message 2; message 3] in
  fst (device_types_list three_records me (initial_world 0)) = Return (VList d)
  /\ fst (groups_list three_records me_debug (initial_world 0))
     = Return (VList d)
  /\ fst (device_list three_records me (VDict [("id", VStr "5d3f")])
            (initial_world 0))
     = Return (VList d)
  /\ fst (groups_list no_data me (initial_world 0)) = Raise (KeyError "data").
Proof.
  cbv zeta.
  assert (Hj : json (ok (envelope [message 1; message 2; message 3] None))
               = Some (VDict [("data", VList [message 1; message 2; message 3])]))
    by reflexivity.
  assert (Hd : lookup "data" [("data", VList [message 1; message 2; message 3])]
               = None
               \/ exists d, lookup "data"
                              [("data", VList [message 1; message 2; message 3])]
                            = Some (VList d))
    by (right; eexists; reflexivity).
  destruct (list_methods_return_data three_records me (initial_world 0) _ _
              Hj Hd) as (H1 & _ & H3).
  destruct (list_methods_return_data three_records me_debug (initial_world 0)
              _ _ Hj Hd) as (_ & H2 & _).
  assert (Hj' : json (ok (VDict [("message", VStr "Internal Server Error")]))
                = Some (VDict [("message", VStr "Internal Server Error")]))
    by reflexivity.
  assert (Hd' : lookup "data" [("message", VStr "Internal Server Error")] = None
                \/ exists d, lookup "data"
                               [("message", VStr "Internal Server Error")]
                             = Some (VList d))
    by (left; reflexivity).
  destruct (list_methods_return_data no_data me (initial_world 0) _ _
              Hj' Hd') as (_ & H4 & _).
  split; [|split; [|split]].
  - apply H1. reflexivity.
  - apply H2. reflexivity.
  - apply (H3 (VDict [("id", VStr "5d3f")]) (VStr "5d3f")); reflexivity.
  - apply H4. reflexivity.
Defined.

(** ** The debug flag, the constructor and the login test *)

(** X10.  For [device_info], [device_rename], [groups_list] and
    [device_types_create] the [debug] flag changes nothing but what is
    printed: the outcome, the requests sent, the clock and the limiters
    are the same with the flag on and off. *)
Theorem debug_only_prints
    (backend : list (Z * Request) -> Z -> Request -> Response)
    (self : Sigfox) (b : bool) (w : World)
    (device_id : string) (v : value) :
  (fst (device_info backend (set_debug b self) device_id w)
   = fst (device_info backend self device_id w)
   /\ same_but_stdout (snd (device_info backend (set_debug b self) device_id w))
                      (snd (device_info backend self device_id w)))
  /\
  (fst (device_rename backend (set_debug b self) device_id v w)
   = fst (device_rename backend self device_id v w)
   /\ same_but_stdout
        (snd (device_rename backend (set_debug b self) device_id v w))
        (snd (device_rename backend self device_id v w)))
  /\
  (fst (groups_list backend (set_debug b self) w)
   = fst (groups_list backend self w)
   /\ same_but_stdout (snd (groups_list backend (set_debug b self) w))
                      (snd (groups_list backend self w)))
  /\
  (fst (device_types_create backend (set_debug b self) v w)
   = fst (device_types_create backend self v w)
   /\ same_but_stdout (snd (device_types_create backend (set_debug b self) v w))
                      (snd (device_types_create backend self v w))).
Proof.
  destruct self as [l p a dbg]. unfold set_debug. cbn [login password api_url].
  repeat apply conj.
  all: unfold device_info, device_rename, groups_list, device_types_create,
         bind, when, requests_get, requests_put, requests_post, send,
         try_except, response_json, lift, same_but_stdout, basic_auth;
       destruct b, dbg; cbn;
       repeat match goal with
         | |- context [json ?r] => destruct (json r); cbn
         | |- context [getitem ?x ?k] => destruct (getitem x k); cbn
         | |- context [iter ?x] => destruct (iter x); cbn
         end;
       repeat split.
Qed.

(** X11.  When [device_create] raises [KeyError] or [TypeError] (a key
    of the device or of the device type is missing, or is not the
    string that a concatenation needs), it has sent nothing: no device
    is created by a call that fails on its arguments. *)
Theorem device_create_rejects_before_sending
    (backend : list (Z * Request) -> Z -> Request -> Response)
    (self : Sigfox) (device : value) (cert : string) (devicetype : value)
    (w : World) :
  (exists k, fst (device_create backend self device cert devicetype w)
             = Raise (KeyError k))
  \/ fst (device_create backend self device cert devicetype w) = Raise TypeError ->
  sent (snd (device_create backend self device cert devicetype w)) = sent w
  /\ clock (snd (device_create backend self device cert devicetype w)) = clock w.
Proof.
  unfold device_create, bind, when, requests_post, send, response_json, lift.
  destruct (debug self);
    repeat match goal with
      | |- context [getitem ?x ?k] => destruct (getitem x k); cbn
      | |- context [str_add ?x ?k] => destruct (str_add x k); cbn
      end;
    try (intros _; split; reflexivity);
    destruct (json _); cbn;
    intros [[k H] | H]; discriminate.
Qed.

Lemma device_create_rejects_before_sending_witness :
  let run := device_create plain_info me (VDict [("id", VStr "1A2B")])
               "P_0001_AAAA_01" (VDict [("id", VStr "5d3f")])
               (initial_world 0) in
  fst run = Raise (KeyError "pac") /\ sent (snd run) = [] /\ clock (snd run) = 0.
Proof.
  cbv zeta. split; [reflexivity|].
  apply (device_create_rejects_before_sending plain_info me
           (VDict [("id", VStr "1A2B")]) "P_0001_AAAA_01"
           (VDict [("id", VStr "5d3f")]) (initial_world 0)).
  left. exists "pac". reflexivity.
Defined.

(** X12.  For [device_create] the [debug] flag is not only output: a
    device type without [name] is accepted by a quiet client, which
    posts the device, and refused by a verbose client, which raises
    [KeyError('name')] while it builds its message and posts
    nothing. *)
Theorem device_create_debug_needs_name
    (backend : list (Z * Request) -> Z -> Request -> Response)
    (self : Sigfox) (device : value) (cert : string) (devicetype : value)
    (w : World) (si t : string) (p : value) :
  getitem device "id" = inr (VStr si) ->
  getitem device "pac" = inr p ->
  getitem devicetype "id" = inr (VStr t) ->
  getitem devicetype "name" = inl (KeyError "name") ->
  (fst (device_create backend (set_debug true self) device cert devicetype w)
   = Raise (KeyError "name")
   /\ sent (snd (device_create backend (set_debug true self) device cert
                   devicetype w))
      = sent w)
  /\
  length (sent (snd (device_create backend (set_debug false self) device cert
                       devicetype w)))
  = S (length (sent w)).
Proof.
  intros Hi Hp Ht Hn.
  unfold device_create, bind, when, requests_post, send, response_json, lift,
    set_debug.
  cbn [debug]. rewrite Hi, Hp, Ht, Hn. cbn.
  repeat split.
  destruct (json _); reflexivity.
Qed.

Lemma device_create_debug_needs_name_witness :
  let device := VDict [("id", VStr "1A2B"); ("pac", VStr "0123456789ABCDEF")] in
  let devicetype := VDict [("id", VStr "5d3f")] in
  fst (device_create plain_info me_debug device "P_0001_AAAA_01" devicetype
         (initial_world 0))
  = Raise (KeyError "name")
  /\ length (sent (snd (device_create plain_info me device "P_0001_AAAA_01"
                          devicetype (initial_world 0))))
     = 1%nat.
Proof.
  cbv zeta.
  destruct (device_create_debug_needs_name plain_info me
              (VDict [("id", VStr "1A2B"); ("pac", VStr "0123456789ABCDEF")])
              "P_0001_AAAA_01" (VDict [("id", VStr "5d3f")]) (initial_world 0)
              "1A2B" "5d3f" (VStr "0123456789ABCDEF")
              eq_refl eq_refl eq_refl eq_refl) as [[H1 _] H2].
  split; [exact H1 | exact H2].
Defined.

(** X13.  [login_test] returns exactly when the status of the answer to
    its one GET of [device-types] is 200; any other status, also another
    2xx, makes it raise an [Exception] whose message ends with that
    status; the body is not read. *)
Theorem login_test_succeeds_iff_200
    (backend : list (Z * Request) -> Z -> Request -> Response)
    (self : Sigfox) (w : World) :
  let r := backend (sent w) (clock w) (types_request self) in
  (fst (login_test backend self w) = Return VNone <-> status_code r = 200)
  /\
  (status_code r <> 200 ->
   fst (login_test backend self w)
   = Raise (Exception ("Unable to login to Sigfox API ("
                       ++ (api_url self ++ "device-types") ++ "): "
                       ++ str_of_int (status_code r))))
  /\
  sent (snd (login_test backend self w)) = (clock w, types_request self) :: sent w.
Proof.
  cbv zeta.
  unfold login_test, bind, requests_get, send.
  fold (types_request self). cbn [fst snd].
  destruct (status_code _ =? 200) eqn:E; cbn.
  - apply Z.eqb_eq in E. repeat split; auto. intros H; contradiction.
  - apply Z.eqb_neq in E. repeat split; auto; intros H;
      try discriminate; contradiction.
Qed.

Lemma login_test_succeeds_iff_200_witness :
  fst (login_test no_content me (initial_world 0))
  = Raise (Exception
      "Unable to login to Sigfox API (https://api.sigfox.com/v2/device-types): 204")
  /\ fst (login_test plain_info me (initial_world 0)) = Return VNone.
Proof.
  destruct (login_test_succeeds_iff_200 no_content me (initial_world 0))
    as (_ & H & _).
  destruct (login_test_succeeds_iff_200 plain_info me (initial_world 0))
    as (H' & _ & _).
  split.
  - apply H. discriminate.
  - apply H'. reflexivity.
Defined.

(** X14.  The constructor succeeds exactly when the login and the
    password are both non-empty; the instance then holds them as given,
    with the fixed base URL, and they are the credentials of the
    requests the instance sends. *)
Theorem init_succeeds_iff_credentials
    (login password : string) (debug : bool) (w : World) :
  ((exists self, fst (__init__ login password debug w) = Return self)
   <-> login <> "" /\ password <> "")
  /\
  (forall self,
      fst (__init__ login password debug w) = Return self ->
      basic_auth self = (login, password)
      /\ api_url self = "https://api.sigfox.com/v2/"
      /\ auth (types_request self) = (login, password)
      /\ snd (__init__ login password debug w) = w).
Proof.
  unfold __init__.
  destruct login as [|c l]; destruct password as [|c' p]; cbn; split;
    try (split; [intros [s H]; discriminate | intros [H1 H2]; congruence]);
    try (intros s H; discriminate).
  - split; [intros _; split; discriminate | intros _; eexists; reflexivity].
  - intros s H. injection H as <-. repeat split.
Qed.

Lemma init_succeeds_iff_credentials_witness :
  exists self,
    fst (__init__ "login" "secret" false (initial_world 0)) = Return self.
Proof.
  destruct (init_succeeds_iff_credentials "login" "secret" false
              (initial_world 0)) as [[_ H] _].
  apply H. split; discriminate.
Defined.

(** ** What a walk prints *)

(** X15.  A walk of [device_messages] that fits under the recursion
    limit and reaches a last page prints nothing.  A walk that fits and
    is cut short by an envelope without [data] returns without an error
    but not without a trace: the call that met the envelope has printed
    the text of its body, once. *)
Theorem walk_output
    (backend : list (Z * Request) -> Z -> Request -> Response)
    (self : Sigfox) (device_id : string)
    (ps : option (list (string * value)))
    (pages : list (list value)) (w : World) (capacity fuel : nat) :
  (length pages < capacity)%nat ->
  (length pages + 2 <= fuel)%nat ->
  (forall dlast,
      chain backend (fun r => is_page r dlast None) (sent w)
        (messages_request self device_id ps) self pages ->
      stdout (snd (device_messages_within backend capacity fuel self
                     device_id ps w))
      = stdout w)
  /\
  (forall r,
      lacks_data r ->
      pages <> [] ->
      chain backend (fun r' => r' = r) (sent w)
        (messages_request self device_id ps) self pages ->
      stdout (snd (device_messages_within backend capacity fuel self
                     device_id ps w))
      = PPrint (VStr (text r)) :: stdout w).
Proof.
  intros Hcap Hfuel. split.
  - intros dlast Hc.
    destruct (messages_within_all backend pages dlast self device_id ps
                capacity w fuel Hc Hcap Hfuel) as (w' & E & _ & Hout).
    rewrite E. exact Hout.
  - intros r Hl Hne Hc.
    destruct (messages_within_truncated backend (fun r' => r' = r) pages self
                device_id ps capacity w fuel) as (w' & r0 & -> & E & Hout);
      auto.
    + intros r' ->. exact Hl.
    + rewrite E. exact Hout.
Qed.

Lemma walk_output_witness :
  stdout (snd (device_messages_within two_pages 2 3 me "1A2B" None
                 (initial_world 0)))
  = []
  /\ stdout (snd (device_messages_within truncated 2 3 me "1A2B" None
                    (initial_world 0)))
     = [PPrint (VStr "(json)")].
Proof.
  assert (Hcap : (length [first_page] < 2)%nat) by (simpl; lia).
  assert (Hfuel : (length [first_page] + 2 <= 3)%nat) by (simpl; lia).
  destruct (walk_output two_pages me "1A2B" None [first_page] (initial_world 0)
              2 3 Hcap Hfuel) as [H1 _].
  destruct (walk_output truncated me "1A2B" None [first_page] (initial_world 0)
              2 3 Hcap Hfuel) as [_ H2].
  split.
  - apply (H1 second_page). intros t. exists (VStr cursor).
    split; [exact is_url_cursor|]. split.
    + exact (is_page_envelope first_page (Some cursor)).
    + intros t'. exact (is_page_envelope second_page None).
  - apply (H2 (ok (VDict [("message", VStr "Internal Server Error")]))).
    + split; [discriminate|]. eexists; split; reflexivity.
    + discriminate.
    + intros t. exists (VStr cursor). split; [exact is_url_cursor|]. split.
      * exact (is_page_envelope first_page (Some cursor)).
      * intros t'. reflexivity.
Defined.


